(** * simplechat: the chat relay handler of [lambda/index.py]

    A shallow embedding of the Lambda handler and of the helpers it calls
    ([extract_region_from_arn], [build_prompt], [invoke_model]), followed by
    the properties of the handler that the specification states.

    Conventions of the embedding.
    - A Python [str] is a Rocq [string] holding its UTF-8 bytes.  Every
      character the code inspects (the colon, the slash, white space, the
      newline) is ASCII, and UTF-8 never uses an ASCII byte inside a longer
      sequence, so scanning bytes and scanning code points agree.
    - The values that travel through the handler are the ones [json.loads]
      produces: [value] below.  Python is dynamically typed, so every
      operation the handler applies to such a value is a function of [value]
      that returns or raises.
    - [json.loads], [json.dumps], [urllib.request.urlopen] and [boto3.client]
      are library code: they are the variables of the section [Handler].
    - [print] writes to the log only; the embedding keeps the evaluation of
      its arguments where that evaluation can raise. *)

From Stdlib Require Import String Ascii List ZArith Lia Bool PrimFloat DecimalString.
Import ListNotations.
Open Scope string_scope.

Set Implicit Arguments.
#[local] Set Warnings "-register-all".

(** ** Values and exceptions *)

Inductive value : Type :=
| VNone
| VBool (b : bool)
| VInt (n : Z)
| VFloat (f : float)
| VStr (s : string)
| VList (items : list value)
| VDict (entries : list (string * value)).

(** The exceptions of the handler; all of them derive from [Exception]. *)
Inductive exn : Type :=
| KeyError (key : string)
| TypeError (msg : string)
| AttributeError (msg : string)
| JSONDecodeError (msg : string)
| HTTPError (code : Z) (reason : string)
| URLError (reason : string)
| Exception (msg : string)
| ClientError (msg : string).

Inductive result (A : Type) : Type :=
| Raise (e : exn)
| Return (a : A).
Arguments Raise {A} e.
Arguments Return {A} a.

Definition rbind {A B} (m : result A) (k : A -> result B) : result B :=
  match m with
  | Raise e => Raise e
  | Return a => k a
  end.

(** [f"{n}"] for an [int]. *)
Definition str_of_int (n : Z) : string := NilZero.string_of_int (Z.to_int n).

(** [str(error)].  A [KeyError] prints the [repr] of its key; the keys the
    handler subscripts with are identifiers, whose [repr] is the key between
    single quotes.  [HTTPError.__str__] is ['HTTP Error %s: %s']. *)
Definition str_exn (e : exn) : string :=
  match e with
  | KeyError key => "'" ++ key ++ "'"
  | TypeError msg => msg
  | AttributeError msg => msg
  | JSONDecodeError msg => msg
  | HTTPError code reason => "HTTP Error " ++ str_of_int code ++ ": " ++ reason
  | URLError reason => "<urlopen error " ++ reason ++ ">"
  | Exception msg => msg
  | ClientError msg => msg
  end.

(** ** The operations of Python the handler uses *)

Module Py.

Definition type_name (v : value) : string :=
  match v with
  | VNone => "NoneType"
  | VBool _ => "bool"
  | VInt _ => "int"
  | VFloat _ => "float"
  | VStr _ => "str"
  | VList _ => "list"
  | VDict _ => "dict"
  end.

Definition no_attribute (v : value) (attr : string) : exn :=
  AttributeError ("'" ++ type_name v ++ "' object has no attribute '" ++ attr ++ "'").

Fixpoint lookup (key : string) (entries : list (string * value)) : option value :=
  match entries with
  | [] => None
  | (k, v) :: rest => if String.eqb k key then Some v else lookup key rest
  end.

(** [s.startswith(p)] *)
Fixpoint startswith (p s : string) : bool :=
  match p, s with
  | EmptyString, _ => true
  | String a p', String b s' => Ascii.eqb a b && startswith p' s'
  | String _ _, EmptyString => false
  end.

(** [p in s] for two strings *)
Fixpoint substring_of (p s : string) : bool :=
  startswith p s ||
  match s with
  | EmptyString => false
  | String _ s' => substring_of p s'
  end.

Definition is_str (key : string) (v : value) : bool :=
  match v with
  | VStr s => String.eqb s key
  | _ => false
  end.

(** [x == "literal"] *)
Definition eq_str (v : value) (lit : string) : bool := is_str lit v.

(** [key in v] for a string [key] *)
Definition contains (key : string) (v : value) : result bool :=
  match v with
  | VDict entries =>
      Return (match lookup key entries with Some _ => true | None => false end)
  | VList items => Return (existsb (is_str key) items)
  | VStr s => Return (substring_of key s)
  | _ => Raise (TypeError ("argument of type '" ++ type_name v ++ "' is not iterable"))
  end.

(** [v[key]] for a string [key] *)
Definition getitem (v : value) (key : string) : result value :=
  match v with
  | VDict entries =>
      match lookup key entries with
      | Some x => Return x
      | None => Raise (KeyError key)
      end
  | VList _ => Raise (TypeError "list indices must be integers or slices, not str")
  | VStr _ => Raise (TypeError "string indices must be integers, not 'str'")
  | _ => Raise (TypeError ("'" ++ type_name v ++ "' object is not subscriptable"))
  end.

(** [v.get(key, default)] *)
Definition get (v : value) (key : string) (default : value) : result value :=
  match v with
  | VDict entries =>
      Return (match lookup key entries with Some x => x | None => default end)
  | _ => Raise (no_attribute v "get")
  end.

Definition chars (s : string) : list value :=
  map (fun a => VStr (String a EmptyString)) (list_ascii_of_string s).

(** The items [for x in v] visits.  A string yields its characters (one per
    byte here, one per code point in Python: as many items as characters in
    both, each of them a [str]); a dict yields its keys. *)
Definition iter (v : value) : result (list value) :=
  match v with
  | VList items => Return items
  | VDict entries => Return (map (fun kv => VStr (fst kv)) entries)
  | VStr s => Return (chars s)
  | _ => Raise (TypeError ("'" ++ type_name v ++ "' object is not iterable"))
  end.

(** [v.copy()]: lists and dicts have it, a shallow copy; nothing is mutated in
    place afterwards, so the copy is the value. *)
Definition copy (v : value) : result value :=
  match v with
  | VList items => Return (VList items)
  | VDict entries => Return (VDict entries)
  | _ => Raise (no_attribute v "copy")
  end.

(** [v.append(x)], returning the list [v] has become *)
Definition append (v x : value) : result value :=
  match v with
  | VList items => Return (VList (items ++ [x])%list)
  | _ => Raise (no_attribute v "append")
  end.

(** ["".join(texts)] *)
Fixpoint join_from (i : nat) (texts : list value) : result string :=
  match texts with
  | [] => Return ""
  | VStr s :: rest => rbind (join_from (S i) rest) (fun r => Return (s ++ r))
  | v :: _ =>
      Raise (TypeError ("sequence item " ++ str_of_int (Z.of_nat i)
                        ++ ": expected str instance, " ++ type_name v ++ " found"))
  end.

Definition join_empty (texts : list value) : result string := join_from 0 texts.

(** [sep.join(lines)] for a list of strings *)
Fixpoint join (sep : string) (lines : list string) : string :=
  match lines with
  | [] => ""
  | [l] => l
  | l :: rest => l ++ sep ++ join sep rest
  end.

(** Truth value of a value, for [or]. *)
Definition truthy (v : value) : bool :=
  match v with
  | VNone => false
  | VBool b => b
  | VInt n => negb (Z.eqb n 0)
  | VFloat f => negb (PrimFloat.eqb f 0)
  | VStr s => negb (String.eqb s "")
  | VList items => match items with [] => false | _ => true end
  | VDict entries => match entries with [] => false | _ => true end
  end.

Definition is_space (a : ascii) : bool :=
  let n := nat_of_ascii a in
  ((9 <=? n) && (n <=? 13) || (28 <=? n) && (n <=? 32))%nat.

(** [s.rstrip()]: trailing white space removed.  The white space of ASCII is
    what the embedding strips; the one string the code strips ends in a
    newline after an ideographic full stop. *)
Fixpoint rstrip (s : string) : string :=
  match s with
  | EmptyString => EmptyString
  | String a s' =>
      match rstrip s' with
      | EmptyString => if is_space a then EmptyString else String a EmptyString
      | r => String a r
      end
  end.

(** [s.rstrip(c)] for a one-character [c] *)
Fixpoint rstrip_char (c : ascii) (s : string) : string :=
  match s with
  | EmptyString => EmptyString
  | String a s' =>
      match rstrip_char c s' with
      | EmptyString => if Ascii.eqb a c then EmptyString else String a EmptyString
      | r => String a r
      end
  end.

End Py.

(** ** Module constants *)

Definition newline : string := String (ascii_of_nat 10) EmptyString.

Definition API_URL : string :=
  Py.rstrip_char "/" "https://a814-35-196-164-95.ngrok-free.app/".

Definition SYSTEM_PROMPT : string :=
  "以下は会話の履歴です。あくまでコンテキストの参照用です。" ++ newline ++
  "これらを出力に含めず、必ず「アシスタント: 」以降の応答のみを返してください。" ++ newline.

Definition user_label : string := "ユーザ".
Definition assistant_label : string := "アシスタント".

(** ** [extract_region_from_arn] *)

(** [re.search('arn:aws:lambda:([^:]+):', arn)]: the leftmost position where
    the literal prefix is followed by a non-empty run of characters other
    than the colon and then a colon.  The run is greedy and the class excludes
    exactly the colon, so at a given position the only candidate for group 1
    is the whole run up to the next colon. *)

Fixpoint strip_prefix (p s : string) : option string :=
  match p, s with
  | EmptyString, _ => Some s
  | String a p', String b s' => if Ascii.eqb a b then strip_prefix p' s' else None
  | String _ _, EmptyString => None
  end.

(** The longest prefix without a colon, and what follows it. *)
Fixpoint span_not_colon (s : string) : string * string :=
  match s with
  | EmptyString => (EmptyString, EmptyString)
  | String a s' =>
      if Ascii.eqb a ":" then (EmptyString, s)
      else let (run, rest) := span_not_colon s' in (String a run, rest)
  end.

Definition arn_prefix : string := "arn:aws:lambda:".

(** The pattern anchored at the start of [s]; the result is group 1. *)
Definition match_here (s : string) : option string :=
  match strip_prefix arn_prefix s with
  | None => None
  | Some after =>
      let (run, rest) := span_not_colon after in
      if negb (String.eqb run "") && Py.startswith ":" rest then Some run else None
  end.

Fixpoint re_search (s : string) : option string :=
  match match_here s with
  | Some group1 => Some group1
  | None =>
      match s with
      | EmptyString => None
      | String _ s' => re_search s'
      end
  end.

Definition extract_region_from_arn (arn : string) : string :=
  match re_search arn with
  | Some group1 => group1
  | None => "us-east-1"
  end.

(** ** [build_prompt] *)

(** [[c.get("text", "") for c in content]] *)
Fixpoint texts_of (items : list value) : result (list value) :=
  match items with
  | [] => Return []
  | c :: rest =>
      rbind (Py.get c "text" (VStr "")) (fun t =>
      rbind (texts_of rest) (fun ts => Return (t :: ts)))
  end.

(** One round of the loop body: the line appended for [msg]. *)
Definition turn_line (msg : value) : result string :=
  rbind (Py.get msg "role" VNone) (fun r =>
  let role := if Py.eq_str r "user" then user_label else assistant_label in
  rbind (Py.get msg "content" (VList [])) (fun content =>
  rbind (Py.iter content) (fun items =>
  rbind (texts_of items) (fun texts =>
  rbind (Py.join_empty texts) (fun content_str =>
  Return (role ++ ": " ++ content_str)))))).

(** The loop [for msg in messages], threading [lines]. *)
Fixpoint turn_lines (lines : list string) (msgs : list value) : result (list string) :=
  match msgs with
  | [] => Return lines
  | msg :: rest =>
      rbind (turn_line msg) (fun l => turn_lines (lines ++ [l])%list rest)
  end.

Definition build_prompt (messages : value) : result string :=
  let lines := ([] ++ [Py.rstrip SYSTEM_PROMPT])%list in
  rbind (Py.iter messages) (fun msgs =>
  rbind (turn_lines lines msgs) (fun lines =>
  let lines := (lines ++ [(assistant_label ++ ": ")%string])%list in
  Return (Py.join newline lines))).

(** ** The world of an invocation *)

Record LambdaContext : Type := { invoked_function_arn : string }.

(** The handle [boto3.client(service, region_name=...)] returns. *)
Record client : Type := { service_name : string; region_name : string }.

(** [urllib.request.Request(url, data=..., headers=..., method=...)] *)
Record request : Type :=
  { url : string;
    data : string;
    req_headers : list (string * string);
    method : string }.

(** What [urlopen] hands back: the status line and the bytes of the body. *)
Record http_response : Type := { status : Z; content : string }.

(** The dict the handler returns to the gateway. *)
Record response : Type :=
  { statusCode : Z;
    headers : list (string * string);
    body : string }.

(** The global [bedrock_client] and the requests that left the process. *)
Record world : Type :=
  { bedrock_client : option client;
    sent : list request }.

(** A computation reads and writes the world and returns or raises; what it
    wrote before raising stays written. *)
Definition M (A : Type) : Type := world -> result A * world.

Definition ret {A} (a : A) : M A := fun w => (Return a, w).

Definition bind {A B} (m : M A) (k : A -> M B) : M B :=
  fun w =>
    match m w with
    | (Raise e, w') => (Raise e, w')
    | (Return a, w') => k a w'
    end.

Definition lift {A} (r : result A) : M A := fun w => (r, w).

(** [try: body  except Exception as error: handler] *)
Definition try_except {A} (body : M A) (handler : exn -> M A) : M A :=
  fun w =>
    match body w with
    | (Raise error, w') => handler error w'
    | (Return a, w') => (Return a, w')
    end.

Notation "x <- m ;; k" := (bind m (fun x => k))
  (at level 61, m at next level, right associativity).
Notation "m ;;; k" := (bind m (fun _ => k))
  (at level 61, right associativity).

Definition get_bedrock_client : M (option client) :=
  fun w => (Return (bedrock_client w), w).

Definition set_bedrock_client (c : client) : M unit :=
  fun w => (Return tt, {| bedrock_client := Some c; sent := sent w |}).

Section Handler.

(** [boto3.client]: the handle, or the exception the constructor raises. *)
Variable boto3_client : string -> string -> result client.

(** [json.loads] on text, [json.dumps] with its default arguments. *)
Variable loads : string -> result value.
Variable dumps : value -> string.

(** The endpoint behind [urlopen]: a response, or the exception [urlopen]
    raises ([URLError], or [HTTPError] for the statuses its error processor
    rejects). *)
Variable urlopen : request -> result http_response.

(** [urlopen(req)]: the request leaves, the endpoint answers. *)
Definition do_urlopen (req : request) : M http_response :=
  fun w => (urlopen req,
            {| bedrock_client := bedrock_client w; sent := (sent w ++ [req])%list |}).

(** [json.loads(x)]: text is parsed, anything else is a [TypeError]. *)
Definition json_loads (x : value) : result value :=
  match x with
  | VStr s => loads s
  | _ => Raise (TypeError ("the JSON object must be str, bytes or bytearray, not "
                           ++ Py.type_name x))
  end.

(** ** [invoke_model] *)

Definition invoke_model (payload : value) : M value :=
  let data := dumps payload in
  let req := {| url := API_URL ++ "/generate";
                data := data;
                req_headers := [("Content-Type", "application/json")];
                method := "POST" |} in
  resp <- do_urlopen req ;;
  if negb (Z.eqb (status resp) 200) then
    lift (Raise (Exception ("API error: " ++ str_of_int (status resp))))
  else
    result <- lift (loads (content resp)) ;;
    ret result.

(** ** [lambda_handler] *)

#[local] Set Warnings "-inexact-float".

(** The statements of the [try] block. *)
Definition lambda_handler_try (event : value) (context : LambdaContext) : M response :=
  c <- get_bedrock_client ;;
  match c with
  | None =>
      let region := extract_region_from_arn (invoked_function_arn context) in
      cl <- lift (boto3_client "bedrock-runtime" region) ;;
      set_bedrock_client cl
  | Some _ => ret tt
  end ;;;
  (* 'requestContext' in event and 'authorizer' in event['requestContext'] *)
  has_context <- lift (Py.contains "requestContext" event) ;;
  has_authorizer <-
    (if has_context : bool then
       rc <- lift (Py.getitem event "requestContext") ;;
       lift (Py.contains "authorizer" rc)
     else ret false) ;;
  (if has_authorizer : bool then
     rc <- lift (Py.getitem event "requestContext") ;;
     authorizer <- lift (Py.getitem rc "authorizer") ;;
     user_info <- lift (Py.getitem authorizer "claims") ;;
     (* the argument of print: user_info.get('email') or user_info.get(...) *)
     email <- lift (Py.get user_info "email" VNone) ;;
     (if Py.truthy email then ret email
      else lift (Py.get user_info "cognito:username" VNone)) ;;;
     ret tt
   else ret tt) ;;;
  raw <- lift (Py.getitem event "body") ;;
  body <- lift (json_loads raw) ;;
  message <- lift (Py.getitem body "message") ;;
  conversation_history <- lift (Py.get body "conversationHistory" (VList [])) ;;
  messages <- lift (Py.copy conversation_history) ;;
  messages <- lift (Py.append messages
                      (VDict [("role", VStr "user"); ("content", message)])) ;;
  bedrock_messages <- lift (build_prompt messages) ;;
  let request_payload :=
    VDict [ ("prompt", VStr bedrock_messages);
            ("max_new_tokens", VInt 512);
            ("temperature", VFloat 0.7);
            ("top_p", VFloat 0.9);
            ("do_sample", VBool true) ] in
  result <- invoke_model request_payload ;;
  assistant_response <- lift (Py.getitem result "generated_text") ;;
  messages <- lift (Py.append messages
                      (VDict [("role", VStr "assistant");
                              ("content", assistant_response)])) ;;
  ret {| statusCode := 200;
         headers :=
           [ ("Content-Type", "application/json");
             ("Access-Control-Allow-Origin", "*");
             ("Access-Control-Allow-Headers",
                "Content-Type,X-Amz-Date,Authorization,X-Api-Key,X-Amz-Security-Token");
             ("Access-Control-Allow-Methods", "OPTIONS,POST") ];
         body := dumps (VDict [ ("success", VBool true);
                                ("response", assistant_response);
                                ("conversationHistory", messages) ]) |}.

(** The [except Exception as error] clause. *)
Definition lambda_handler_except (error : exn) : M response :=
  ret {| statusCode := 500;
         headers :=
           [ ("Content-Type", "application/json");
             ("Access-Control-Allow-Origin", "*");
             ("Access-Control-Allow-Headers",
                "Content-Type,X-Amz-Date,Authorization,X-Api-Key,X-Amz-Security-Token");
             ("Access-Control-Allow-Methods", "OPTIONS,POST") ];
         body := dumps (VDict [ ("success", VBool false);
                                ("error", VStr (str_exn error)) ]) |}.

Definition lambda_handler (event : value) (context : LambdaContext) : M response :=
  try_except (lambda_handler_try event context) lambda_handler_except.

End Handler.

(** ** The shapes the specification names *)

(** A Message of the data model: a role and a sequence of text items. *)
Record ContentItem : Type := { text : string }.
Record Message : Type := { role : string; content_items : list ContentItem }.

Definition encode_item (c : ContentItem) : value :=
  VDict [("text", VStr (text c))].

(** The dict a Message is in a conversation history. *)
Definition encode_message (m : Message) : value :=
  VDict [("role", VStr (role m));
         ("content", VList (map encode_item (content_items m)))].

(** The user turn and the assistant turn of the data model. *)
Definition user_message (message : string) : Message :=
  {| role := "user"; content_items := [{| text := message |}] |}.

Definition assistant_message (generated_text : string) : Message :=
  {| role := "assistant"; content_items := [{| text := generated_text |}] |}.

(** The dicts the handler appends to its working history. *)
Definition user_turn (message : value) : value :=
  VDict [("role", VStr "user"); ("content", message)].

Definition assistant_turn (assistant_response : value) : value :=
  VDict [("role", VStr "assistant"); ("content", assistant_response)].

(** The system preamble, as the prompt starts with it. *)
Definition preamble : string :=
  "以下は会話の履歴です。あくまでコンテキストの参照用です。" ++ newline ++
  "これらを出力に含めず、必ず「アシスタント: 」以降の応答のみを返してください。".

(** The continuation marker the prompt ends with. *)
Definition continuation_marker : string := "アシスタント: ".

Definition role_label (r : string) : string :=
  if String.eqb r "user" then user_label else assistant_label.

(** The turn line of a Message, in the words of the specification: the label
    of the role, a colon and a space, and the texts with nothing between. *)
Definition spec_turn_line (m : Message) : string :=
  role_label (role m) ++ ": " ++ String.concat "" (map text (content_items m)).

(** The prompt of a sequence of Messages, in the words of the specification. *)
Definition spec_prompt (msgs : list Message) : string :=
  Py.join newline ([preamble] ++ map spec_turn_line msgs ++ [continuation_marker])%list.

(** [s.split("\n")]: the physical lines of a text. *)
Fixpoint split_lines (s : string) : list string :=
  match s with
  | EmptyString => [EmptyString]
  | String a s' =>
      if Ascii.eqb a (ascii_of_nat 10) then EmptyString :: split_lines s'
      else match split_lines s' with
           | l :: ls => String a l :: ls
           | [] => [String a EmptyString]
           end
  end.

(** No character of the string is a newline. *)
Fixpoint newline_free (s : string) : Prop :=
  match s with
  | EmptyString => True
  | String a s' => a <> ascii_of_nat 10 /\ newline_free s'
  end.

(** No text of the Message holds a newline. *)
Definition single_line_texts (m : Message) : Prop :=
  Forall (fun c => newline_free (text c)) (content_items m).

(** The CORS header set of the interface, with the content type. *)
Definition cors_header_set : list (string * string) :=
  [ ("Content-Type", "application/json");
    ("Access-Control-Allow-Origin", "*");
    ("Access-Control-Allow-Headers",
       "Content-Type,X-Amz-Date,Authorization,X-Api-Key,X-Amz-Security-Token");
    ("Access-Control-Allow-Methods", "OPTIONS,POST") ].

#[local] Set Warnings "-inexact-float".

(** The GenerationRequest of a prompt. *)
Definition generation_request (prompt : string) : value :=
  VDict [ ("prompt", VStr prompt);
          ("max_new_tokens", VInt 512);
          ("temperature", VFloat 0.7);
          ("top_p", VFloat 0.9);
          ("do_sample", VBool true) ].

(** The two envelopes, before serialisation. *)
Definition success_envelope (generated_text history : value) : value :=
  VDict [ ("success", VBool true);
          ("response", generated_text);
          ("conversationHistory", history) ].

Definition error_envelope (message : string) : value :=
  VDict [ ("success", VBool false); ("error", VStr message) ].

(** [needle] occurs in [s]. *)
Definition mentions (needle s : string) : Prop :=
  exists before after, s = before ++ needle ++ after.

Definition no_colon (s : string) : Prop :=
  forall before after, s <> before ++ ":" ++ after.

(** No character of the string is a colon. *)
Fixpoint colon_free (s : string) : Prop :=
  match s with
  | EmptyString => True
  | String a s' => a <> ":"%char /\ colon_free s'
  end.

(** [arn] holds the pattern ["arn:aws:lambda:<region>:"] with [region] in it,
    [before] characters in. *)
Definition arn_pattern_at (arn before region after : string) : Prop :=
  arn = before ++ arn_prefix ++ region ++ ":" ++ after
  /\ region <> "" /\ no_colon region.

Definition is_dict (v : value) : Prop := exists entries, v = VDict entries.

(** The request of the interface for a prompt: a POST of the serialised
    GenerationRequest to the base URL followed by ["/generate"]. *)
Definition generate_request (dumps : value -> string) (prompt : string) : request :=
  {| url := API_URL ++ "/generate";
     data := dumps (generation_request prompt);
     req_headers := [("Content-Type", "application/json")];
     method := "POST" |}.

(** What [invoke_model] makes of the endpoint's answer. *)
Definition answer_result (loads : string -> result value)
    (answer : result http_response) : result value :=
  rbind answer (fun resp =>
  if negb (Z.eqb (status resp) 200) then
    Raise (Exception ("API error: " ++ str_of_int (status resp)))
  else loads (content resp)).

(** What the [try] block returns once [invoke_model] has returned or raised,
    for the working history [items] followed by the user turn. *)
Definition respond (dumps : value -> string) (items : list value) (message : value)
    (outcome : result value) : result response :=
  rbind outcome (fun res =>
  rbind (Py.getitem res "generated_text") (fun assistant_response =>
  Return {| statusCode := 200;
            headers := cors_header_set;
            body := dumps (success_envelope assistant_response
                             (VList (items ++ [user_turn message;
                                               assistant_turn assistant_response])%list)) |})).

(** The response of the [except] clause for an error message. *)
Definition error_response (dumps : value -> string) (message : string) : response :=
  {| statusCode := 500;
     headers := cors_header_set;
     body := dumps (error_envelope message) |}.

(** The three malformed requests of the contract: no body, a body that is
    not JSON, a JSON object without [message]. *)
Definition body_absent (event : value) : Prop :=
  exists entries, event = VDict entries /\ Py.lookup "body" entries = None.

Definition body_not_json (loads : string -> result value) (event : value) : Prop :=
  exists entries s e,
    event = VDict entries /\ Py.lookup "body" entries = Some (VStr s)
    /\ loads s = Raise e.

Definition message_missing (loads : string -> result value) (event : value) : Prop :=
  exists entries s fields,
    event = VDict entries /\ Py.lookup "body" entries = Some (VStr s)
    /\ loads s = Return (VDict fields) /\ Py.lookup "message" fields = None.

(** The event carries a request context whose authorizer is an object
    without [claims]. *)
Definition authorizer_without_claims (event : value) : Prop :=
  exists entries context_entries authorizer_entries,
    event = VDict entries
    /\ Py.lookup "requestContext" entries = Some (VDict context_entries)
    /\ Py.lookup "authorizer" context_entries = Some (VDict authorizer_entries)
    /\ Py.lookup "claims" authorizer_entries = None.

(** The endpoint answers [req] with the status [code]: as a response that
    [urlopen] returns, or as the [HTTPError] it raises. *)
Definition upstream_status (urlopen : request -> result http_response)
    (req : request) (code : Z) : Prop :=
  (exists resp, urlopen req = Return resp /\ status resp = code)
  \/ (exists reason, urlopen req = Raise (HTTPError code reason)).

(** The lines on caller identity let the request through: when the event has
    a request context with an authorizer, the authorizer has claims and the
    claims are a dict. *)
Definition identity_passes (event : value) : Prop :=
  forall rc,
    Py.contains "requestContext" event = Return true ->
    Py.getitem event "requestContext" = Return rc ->
    Py.contains "authorizer" rc = Return true ->
    exists authorizer user_info,
      Py.getitem rc "authorizer" = Return authorizer
      /\ Py.getitem authorizer "claims" = Return user_info
      /\ is_dict user_info.

(** ** A library to run the handler with

    A serialiser, a parser given by a table, a constructor that always
    succeeds and an endpoint with one answer: enough to evaluate the handler on
    concrete events. *)

Module Stub.

Definition dquote : string := String (ascii_of_nat 34) EmptyString.

Definition quoted (s : string) : string := dquote ++ s ++ dquote.

Fixpoint dumps (v : value) : string :=
  match v with
  | VNone => "null"
  | VBool true => "true"
  | VBool false => "false"
  | VInt n => str_of_int n
  | VFloat f =>
      if PrimFloat.eqb f 0.7 then "0.7"
      else if PrimFloat.eqb f 0.9 then "0.9" else "1e999"
  | VStr s => quoted s
  | VList items =>
      "[" ++ (fix go (l : list value) : string :=
                match l with
                | [] => ""
                | [x] => dumps x
                | x :: rest => dumps x ++ ", " ++ go rest
                end) items ++ "]"
  | VDict entries =>
      "{" ++ (fix go (l : list (string * value)) : string :=
                match l with
                | [] => ""
                | [(k, x)] => quoted k ++ ": " ++ dumps x
                | (k, x) :: rest => quoted k ++ ": " ++ dumps x ++ ", " ++ go rest
                end) entries ++ "}"
  end.

(** The parser knows the texts of the values [known]: it inverts [dumps] on
    them and rejects every other text. *)
Definition loads (known : list value) (s : string) : result value :=
  match find (fun v => String.eqb (dumps v) s) known with
  | Some v => Return v
  | None => Raise (JSONDecodeError "Expecting value: line 1 column 1 (char 0)")
  end.

Definition boto3_client (service region : string) : result client :=
  Return {| service_name := service; region_name := region |}.

Definition urlopen (answer : result http_response) (_ : request) : result http_response :=
  answer.

(** The answer with status 200 and the JSON text of [v]. *)
Definition ok (v : value) : result http_response :=
  Return {| status := 200; content := dumps v |}.

Definition cold : world := {| bedrock_client := None; sent := [] |}.

Definition context : LambdaContext :=
  {| invoked_function_arn := "arn:aws:lambda:ap-northeast-1:123456789012:function:chat" |}.

(** After the first invocation the client is there. *)
Definition warm (requests : list request) : world :=
  {| bedrock_client :=
       Some {| service_name := "bedrock-runtime"; region_name := "ap-northeast-1" |};
     sent := requests |}.

(** An event of the gateway whose body is the JSON text of [v], without a
    request context. *)
Definition event_of (v : value) : value := VDict [("body", VStr (dumps v))].

(** The handler in a cold process, with a parser that knows [known] and an
    endpoint that answers [answer]. *)
Definition run (known : list value) (answer : result http_response)
    (event : value) : result response * world :=
  lambda_handler boto3_client (loads known) dumps (urlopen answer) event context cold.

(** A request body and an answer of the endpoint. *)
Definition chat (message : value) (history : list value) : value :=
  VDict [("message", message); ("conversationHistory", VList history)].

Definition generated (generated_text : string) : value :=
  VDict [("generated_text", VStr generated_text); ("response_time", VInt 1)].

End Stub.

(** ** More shapes of turns, events and computations *)

(** The text a content item contributes: its [text], the empty string when
    it has none. *)
Definition text_or_default (item : list (string * value)) : value :=
  match Py.lookup "text" item with
  | Some v => v
  | None => VStr ""
  end.

(** The text of an item whose [text] is a string or absent. *)
Definition text_or_empty (item : list (string * value)) : string :=
  match Py.lookup "text" item with
  | Some (VStr s) => s
  | _ => ""
  end.

(** The [text] of the item, when it has one, is a string. *)
Definition text_is_str (item : list (string * value)) : Prop :=
  forall v, Py.lookup "text" item = Some v -> exists s, v = VStr s.

(** The label [build_prompt] gives a dict turn: the user label for the role
    ["user"], the assistant label for any other role and for no role. *)
Definition label_of (entries : list (string * value)) : string :=
  match Py.lookup "role" entries with
  | Some (VStr r) => if String.eqb r "user" then user_label else assistant_label
  | _ => assistant_label
  end.

(** The request [invoke_model] makes of a payload. *)
Definition request_of (dumps : value -> string) (payload : value) : request :=
  {| url := API_URL ++ "/generate";
     data := dumps payload;
     req_headers := [("Content-Type", "application/json")];
     method := "POST" |}.

(** The world after the requests [more] have left. *)
Definition after_sending (w : world) (more : list request) : world :=
  {| bedrock_client := bedrock_client w; sent := (sent w ++ more)%list |}.

(** A computation that does not look at the world: it has one result, and
    one list of requests that it sends. *)
Definition uniform {A : Type} (m : M A) : Prop :=
  exists (r : result A) (more : list request),
    forall w, m w = (r, after_sending w more).

(** An event the lines on caller identity let through: a dict without a
    request context, or whose request context is a dict without an
    authorizer, or whose authorizer is a dict with a dict of claims. *)
Definition identity_ok (event : value) : Prop :=
  exists entries,
    event = VDict entries
    /\ (Py.lookup "requestContext" entries = None
        \/ exists context_entries,
             Py.lookup "requestContext" entries = Some (VDict context_entries)
             /\ (Py.lookup "authorizer" context_entries = None
                 \/ exists authorizer_entries claims,
                      Py.lookup "authorizer" context_entries
                      = Some (VDict authorizer_entries)
                      /\ Py.lookup "claims" authorizer_entries = Some (VDict claims))).

(** What the handler makes of the outcome of its [try] block. *)
Definition settle (dumps : value -> string) (out : result response) : result response :=
  match out with
  | Raise error => Return (error_response dumps (str_exn error))
  | Return resp => Return resp
  end.

(** ** When the request leaves *)

(** The client of the process is there when the call is reached: it was
    there already, or the constructor returns one. *)
Definition client_ready (boto3_client : string -> string -> result client)
    (context : LambdaContext) (w : world) : Prop :=
  match bedrock_client w with
  | Some _ => True
  | None =>
      exists cl,
        boto3_client "bedrock-runtime"
          (extract_region_from_arn (invoked_function_arn context)) = Return cl
  end.

(** The lines on caller identity without the world: what they raise, or
    nothing.  The condition of the [if], then the subscripts and the argument
    of [print]. *)
Definition identity_check (event : value) : result unit :=
  rbind (Py.contains "requestContext" event) (fun has_context =>
  rbind (if has_context : bool then
           rbind (Py.getitem event "requestContext") (fun rc =>
           Py.contains "authorizer" rc)
         else Return false) (fun has_authorizer =>
  if has_authorizer : bool then
    rbind (Py.getitem event "requestContext") (fun rc =>
    rbind (Py.getitem rc "authorizer") (fun authorizer =>
    rbind (Py.getitem authorizer "claims") (fun user_info =>
    rbind (Py.get user_info "email" VNone) (fun email =>
    rbind (if Py.truthy email then Return email
           else Py.get user_info "cognito:username" VNone) (fun _ =>
    Return tt)))))
  else Return tt)).

(** The request gets as far as the call with [prompt]: the client is ready,
    the lines on identity raise nothing, the body parses to a message and a
    history list, and [build_prompt] returns [prompt] for the history followed
    by the user turn. *)
Definition reaches_call (boto3_client : string -> string -> result client)
    (loads : string -> result value)
    (event : value) (context : LambdaContext) (w : world) (prompt : string) : Prop :=
  client_ready boto3_client context w
  /\ identity_check event = Return tt
  /\ exists raw parsed message items,
       Py.getitem event "body" = Return raw
       /\ json_loads loads raw = Return parsed
       /\ Py.getitem parsed "message" = Return message
       /\ Py.get parsed "conversationHistory" (VList []) = Return (VList items)
       /\ build_prompt (VList (items ++ [user_turn message])) = Return prompt.

(** ** Sample events *)

Module Sample.

(** A message in the shape [build_prompt] reads: a list of text items. *)
Definition message : value := VList [VDict [("text", VStr "hi")]].

Definition request_body : value := Stub.chat message [].

Definition known : list value := [request_body; Stub.generated "X"].

Definition event : value := Stub.event_of request_body.

(** The same body behind an authorizer with claims. *)
Definition event_with_claims : value :=
  VDict [("requestContext",
          VDict [("authorizer",
                  VDict [("claims", VDict [("email", VStr "a@example.com")])])]);
         ("body", VStr (Stub.dumps request_body))].

Definition prompt : string :=
  preamble ++ newline ++ user_label ++ ": hi" ++ newline ++ continuation_marker.

(** A constructor that always raises. *)
Definition no_client (service region : string) : result client :=
  Raise (ClientError "Could not connect to the endpoint URL").

(** Another warm world: another client, and a request sent before. *)
Definition other_warm : world :=
  {| bedrock_client := Some {| service_name := "bedrock-runtime"; region_name := "us-east-1" |};
     sent := [generate_request Stub.dumps "earlier"] |}.

End Sample.

(** * Properties *)

Unset Implicit Arguments.

(** ** Strings *)

Lemma append_nil_r (s : string) : s ++ "" = s.
Proof. induction s as [|a s IH]; simpl; [reflexivity | now rewrite IH]. Qed.

Lemma append_assoc (s t u : string) : (s ++ t) ++ u = s ++ t ++ u.
Proof. induction s as [|a s IH]; simpl; [reflexivity | now rewrite IH]. Qed.

Lemma length_append (s t : string) :
  String.length (s ++ t) = String.length s + String.length t.
Proof. induction s as [|a s IH]; simpl; [reflexivity | now rewrite IH]. Qed.

Lemma append_inv_length (s s' t t' : string) :
  s ++ t = s' ++ t' -> String.length s = String.length s' -> s = s' /\ t = t'.
Proof.
  revert s'. induction s as [|a s IH]; intros [|a' s']; simpl; intros E L;
    try discriminate.
  - now split.
  - injection E as -> E. injection L as L.
    destruct (IH _ E L) as [-> ->]. now split.
Qed.

Lemma startswith_spec (p s : string) :
  Py.startswith p s = true <-> exists rest, s = p ++ rest.
Proof.
  revert s. induction p as [|a p IH]; intros s; simpl.
  - split; [intros _; now exists s | reflexivity].
  - destruct s as [|b s].
    + split; [discriminate | intros [rest E]; discriminate].
    + rewrite andb_true_iff, Ascii.eqb_eq, IH. split.
      * intros [-> [rest ->]]. now exists rest.
      * intros [rest E]. injection E as -> ->. split; [reflexivity | now exists rest].
Qed.

Lemma strip_prefix_spec (p s rest : string) :
  strip_prefix p s = Some rest <-> s = p ++ rest.
Proof.
  revert s. induction p as [|a p IH]; intros s; simpl.
  - split; [now intros [= ->] | now intros ->].
  - destruct s as [|b s].
    + split; discriminate.
    + destruct (Ascii.eqb_spec a b) as [->|N].
      * rewrite IH. split; [now intros -> | now intros [= ->]].
      * split; [discriminate | intros [= E _]; now elim N].
Qed.

(** ** The region of an ARN *)

Lemma no_colon_colon_free (s : string) : no_colon s <-> colon_free s.
Proof.
  unfold no_colon. induction s as [|a s IH]; simpl.
  - split; [trivial | intros _ [|b before] after; discriminate].
  - split.
    + intros H. split.
      * intros ->. now apply (H "" s).
      * apply IH. intros before after ->. now apply (H (String a before) after).
    + intros [Ha Hs] [|b before] after; simpl; intros [= E1 E2].
      * now elim Ha.
      * now apply (proj2 IH Hs before after).
Qed.

Lemma span_not_colon_spec (s : string) :
  s = fst (span_not_colon s) ++ snd (span_not_colon s)
  /\ colon_free (fst (span_not_colon s))
  /\ (snd (span_not_colon s) = ""
      \/ exists after, snd (span_not_colon s) = ":" ++ after).
Proof.
  induction s as [|a s (E & F & T)]; simpl.
  - repeat split. now left.
  - destruct (Ascii.eqb_spec a ":") as [->|N].
    + simpl. repeat split. right. now exists s.
    + destruct (span_not_colon s) as [run rest]; simpl in *.
      repeat split; [now rewrite <- E | assumption | assumption | assumption].
Qed.

Lemma span_not_colon_run (run after : string) :
  colon_free run -> span_not_colon (run ++ ":" ++ after) = (run, ":" ++ after).
Proof.
  induction run as [|a run IH]; simpl.
  - reflexivity.
  - intros [N F]. destruct (Ascii.eqb_spec a ":") as [->|_]; [now elim N|].
    pose proof (IH F) as E. simpl in E. now rewrite E.
Qed.

Lemma match_here_spec (s region : string) :
  match_here s = Some region <-> exists after, arn_pattern_at s "" region after.
Proof.
  unfold match_here, arn_pattern_at. split.
  - destruct (strip_prefix arn_prefix s) as [rest|] eqn:P; [|discriminate].
    apply strip_prefix_spec in P.
    destruct (span_not_colon_spec rest) as (E & F & T).
    destruct (span_not_colon rest) as [run tail]; cbn [fst snd] in *.
    destruct (String.eqb_spec run "") as [->|NE]; cbn [negb andb]; [intros [=]|].
    destruct (Py.startswith ":" tail) eqn:C; [|intros [=]].
    intros [= <-]. apply startswith_spec in C. destruct C as [after ->].
    exists after. repeat split.
    + now rewrite P, E.
    + assumption.
    + now apply no_colon_colon_free.
  - intros (after & E & NE & F). cbn [append] in E.
    apply no_colon_colon_free in F.
    assert (P : strip_prefix arn_prefix s = Some (region ++ ":" ++ after))
      by now apply strip_prefix_spec.
    rewrite P, (span_not_colon_run region after F).
    destruct (String.eqb_spec region "") as [->|_]; [now elim NE|].
    reflexivity.
Qed.

Lemma arn_pattern_at_cons (a : ascii) (s before region after : string) :
  arn_pattern_at (String a s) (String a before) region after
  <-> arn_pattern_at s before region after.
Proof.
  unfold arn_pattern_at. cbn [append]. split.
  - intros ([= E] & NE & F). now repeat split.
  - intros (-> & NE & F). now repeat split.
Qed.

Lemma arn_pattern_at_head (s before region after : string) :
  arn_pattern_at s before region after ->
  match before, s with
  | EmptyString, _ => True
  | String b _, String a _ => a = b
  | String _ _, EmptyString => False
  end.
Proof.
  intros (E & _). destruct before as [|b before]; [trivial|].
  subst s. reflexivity.
Qed.

(** At one position the pattern has one region. *)
Lemma arn_pattern_at_region (s before r1 a1 r2 a2 : string) :
  arn_pattern_at s before r1 a1 -> arn_pattern_at s before r2 a2 -> r1 = r2.
Proof.
  revert s. induction before as [|b before IH]; intros s H1 H2.
  - assert (M1 : match_here s = Some r1) by (apply match_here_spec; eauto).
    assert (M2 : match_here s = Some r2) by (apply match_here_spec; eauto).
    congruence.
  - destruct s as [|a s].
    + now apply arn_pattern_at_head in H1.
    + pose proof (arn_pattern_at_head _ _ _ _ H1) as Hd. simpl in Hd. subst a.
      apply (proj1 (arn_pattern_at_cons _ _ _ _ _)) in H1.
      apply (proj1 (arn_pattern_at_cons _ _ _ _ _)) in H2.
      exact (IH s H1 H2).
Qed.

(** [re_search] finds the leftmost occurrence of the pattern. *)
Lemma re_search_Some (s region : string) :
  re_search s = Some region ->
  exists before after,
    arn_pattern_at s before region after
    /\ forall b r a, arn_pattern_at s b r a -> String.length before <= String.length b.
Proof.
  induction s as [|c s IH]; cbn [re_search].
  - destruct (match_here "") as [g|] eqn:M; [|intros [=]].
    intros [= ->]. apply match_here_spec in M. destruct M as [after M].
    exists "", after. split; [assumption | simpl; intros; lia].
  - destruct (match_here (String c s)) as [g|] eqn:M.
    + intros [= ->]. apply match_here_spec in M. destruct M as [after M].
      exists "", after. split; [assumption | simpl; intros; lia].
    + intros R. destruct (IH R) as (before & after & P & L).
      exists (String c before), after. split.
      * now apply (proj2 (arn_pattern_at_cons _ _ _ _ _)).
      * intros [|b0 b] r a Q.
        -- assert (M' : match_here (String c s) = Some r)
             by (apply match_here_spec; eauto).
           congruence.
        -- pose proof (arn_pattern_at_head _ _ _ _ Q) as Hd. simpl in Hd. subst b0.
           apply (proj1 (arn_pattern_at_cons _ _ _ _ _)) in Q. apply L in Q. simpl. lia.
Qed.

Lemma re_search_None (s : string) :
  re_search s = None -> forall b r a, ~ arn_pattern_at s b r a.
Proof.
  induction s as [|c s IH]; cbn [re_search].
  - destruct (match_here "") as [g|] eqn:M; [intros [=]|].
    intros _ [|b0 b] r a Q.
    + assert (M' : match_here "" = Some r) by (apply match_here_spec; eauto).
      congruence.
    + now apply arn_pattern_at_head in Q.
  - destruct (match_here (String c s)) as [g|] eqn:M; [intros [=]|].
    intros R [|b0 b] r a Q.
    + assert (M' : match_here (String c s) = Some r)
        by (apply match_here_spec; eauto).
      congruence.
    + pose proof (arn_pattern_at_head _ _ _ _ Q) as Hd. simpl in Hd. subst b0.
      apply (proj1 (arn_pattern_at_cons _ _ _ _ _)) in Q. now apply (IH R b r a).
Qed.

(** Two occurrences at the same distance from the start are the same one. *)
Lemma arn_pattern_at_same_place (s b1 r1 a1 b2 r2 a2 : string) :
  arn_pattern_at s b1 r1 a1 -> arn_pattern_at s b2 r2 a2 ->
  String.length b1 = String.length b2 -> r1 = r2.
Proof.
  intros H1 H2 L.
  assert (b1 = b2) as ->.
  { destruct H1 as (E1 & _), H2 as (E2 & _). rewrite E1 in E2.
    now destruct (append_inv_length _ _ _ _ E2 L). }
  now apply (arn_pattern_at_region _ _ _ _ _ _ H1 H2).
Qed.

(** C9: [extract_region_from_arn] returns the region of the leftmost
    occurrence of ["arn:aws:lambda:<region>:"] in the string (a region being
    non-empty and free of colons), so it returns a region segment whenever the
    pattern occurs, and it returns ["us-east-1"] when the pattern occurs
    nowhere. *)
Theorem extract_region_from_arn_spec (arn : string) :
  (forall before region after,
      arn_pattern_at arn before region after ->
      (forall b r a, arn_pattern_at arn b r a ->
                     String.length before <= String.length b) ->
      extract_region_from_arn arn = region)
  /\ (forall before region after,
         arn_pattern_at arn before region after ->
         exists b r a, arn_pattern_at arn b r a /\ extract_region_from_arn arn = r)
  /\ ((forall before region after, ~ arn_pattern_at arn before region after) ->
      extract_region_from_arn arn = "us-east-1").
Proof.
  unfold extract_region_from_arn.
  destruct (re_search arn) as [g|] eqn:R.
  - destruct (re_search_Some _ _ R) as (b0 & a0 & P0 & L0).
    split; [|split].
    + intros before region after P L.
      apply (arn_pattern_at_same_place _ _ _ _ _ _ _ P0 P).
      apply Nat.le_antisymm; [now apply (L0 _ _ _ P) | now apply (L _ _ _ P0)].
    + intros _ _ _ _. now exists b0, g, a0.
    + intros N. now elim (N _ _ _ P0).
  - pose proof (re_search_None _ R) as N.
    split; [|split].
    + intros before region after P _. now elim (N _ _ _ P).
    + intros before region after P. now elim (N _ _ _ P).
    + reflexivity.
Qed.

(** ** The prompt *)

Lemma rstrip_SYSTEM_PROMPT : Py.rstrip SYSTEM_PROMPT = preamble.
Proof. vm_compute. reflexivity. Qed.

Lemma texts_of_encode (items : list ContentItem) :
  texts_of (map encode_item items) = Return (map (fun c => VStr (text c)) items).
Proof.
  induction items as [|c items IH]; cbn [map texts_of].
  - reflexivity.
  - unfold encode_item at 1. cbn. rewrite IH. reflexivity.
Qed.

Lemma join_from_texts (i : nat) (items : list ContentItem) :
  Py.join_from i (map (fun c => VStr (text c)) items)
  = Return (String.concat "" (map text items)).
Proof.
  revert i. induction items as [|c items IH]; intros i; cbn [map Py.join_from].
  - reflexivity.
  - rewrite IH. cbn [rbind String.concat].
    destruct (map text items) as [|t ts] eqn:E.
    + now rewrite append_nil_r.
    + reflexivity.
Qed.

(** On the dict of a Message the loop body appends the turn line of the
    specification. *)
Lemma turn_line_encode (m : Message) :
  turn_line (encode_message m) = Return (spec_turn_line m).
Proof.
  unfold turn_line, encode_message, spec_turn_line, role_label.
  cbn [Py.get Py.lookup String.eqb Ascii.eqb Bool.eqb rbind Py.iter Py.eq_str Py.is_str].
  rewrite texts_of_encode. cbn [rbind]. unfold Py.join_empty.
  rewrite join_from_texts. reflexivity.
Qed.

Lemma turn_lines_encode (lines : list string) (msgs : list Message) :
  turn_lines lines (map encode_message msgs)
  = Return (lines ++ map spec_turn_line msgs)%list.
Proof.
  revert lines. induction msgs as [|m msgs IH]; intros lines; cbn [map turn_lines].
  - now rewrite app_nil_r.
  - rewrite turn_line_encode. cbn [rbind]. rewrite IH, <- app_assoc. reflexivity.
Qed.

Lemma build_prompt_encode (msgs : list Message) :
  build_prompt (VList (map encode_message msgs)) = Return (spec_prompt msgs).
Proof.
  unfold build_prompt, spec_prompt. cbn [Py.iter rbind].
  rewrite turn_lines_encode, rstrip_SYSTEM_PROMPT. cbn [rbind].
  rewrite <- app_assoc. reflexivity.
Qed.

(** The loop stops at the first turn that raises; the turns after the last
    one that was reached are never looked at. *)
Lemma turn_lines_app (lines : list string) (msgs1 msgs2 : list value) :
  turn_lines lines (msgs1 ++ msgs2)
  = rbind (turn_lines lines msgs1) (fun lines' => turn_lines lines' msgs2).
Proof.
  revert lines. induction msgs1 as [|m msgs1 IH]; intros lines; cbn [app turn_lines].
  - reflexivity.
  - destruct (turn_line m) as [e|l]; cbn [rbind]; [reflexivity | apply IH].
Qed.

Lemma build_prompt_Return_last (items : list value) (last : value) (prompt : string) :
  build_prompt (VList (items ++ [last])) = Return prompt ->
  exists line, turn_line last = Return line.
Proof.
  unfold build_prompt. cbn [Py.iter rbind]. rewrite turn_lines_app.
  destruct (turn_lines _ items) as [e|lines]; cbn [rbind turn_lines]; [discriminate|].
  destruct (turn_line last) as [e|line]; cbn [rbind]; [discriminate|].
  intros _. now exists line.
Qed.

(** ** Characters of a string as content items *)

Lemma texts_of_Return_dicts (items : list value) (texts : list value) :
  texts_of items = Return texts -> Forall is_dict items.
Proof.
  revert texts. induction items as [|c items IH]; intros texts; cbn [texts_of].
  - constructor.
  - destruct c; cbn [Py.get rbind]; try discriminate.
    destruct (texts_of items) as [e|ts]; cbn [rbind]; [discriminate|].
    intros _. constructor; [now exists entries | now apply (IH ts)].
Qed.

(** The content of a turn that [build_prompt] accepts: the empty string, the
    empty dict, or a list of dicts. *)
Lemma turn_line_user_turn_Return (message : value) (line : string) :
  turn_line (user_turn message) = Return line ->
  message = VStr "" \/ message = VDict []
  \/ exists items, message = VList items /\ Forall is_dict items.
Proof.
  unfold turn_line, user_turn.
  cbn [Py.get Py.lookup String.eqb Ascii.eqb Bool.eqb rbind Py.eq_str Py.is_str].
  destruct message as [| b | n | f | s | items | entries]; cbn [Py.iter rbind];
    try discriminate.
  - destruct s as [|a s]; [now left|].
    cbn [Py.chars list_ascii_of_string map texts_of Py.get rbind]. discriminate.
  - destruct (texts_of items) as [e|texts] eqn:T; cbn [rbind]; [discriminate|].
    intros _. right. right. exists items. split; [reflexivity|].
    now apply (texts_of_Return_dicts items texts).
  - destruct entries as [|[k v] entries]; [now (right; left)|].
    cbn [map fst texts_of Py.get rbind]. discriminate.
Qed.

(** A non-empty string as the content of a turn: the first character is asked
    for its [get]. *)
Lemma turn_line_string_content (r : value) (a : ascii) (s : string) :
  turn_line (VDict [("role", r); ("content", VStr (String a s))])
  = Raise (AttributeError "'str' object has no attribute 'get'").
Proof. reflexivity. Qed.

(** ** Running a computation *)

Lemma bind_inv {A B : Type} (m : M A) (k : A -> M B) (w w' : world) (out : result B) :
  bind m k w = (out, w') ->
  (exists e, m w = (Raise e, w') /\ out = Raise e)
  \/ (exists a w1, m w = (Return a, w1) /\ k a w1 = (out, w')).
Proof.
  unfold bind. destruct (m w) as [[e|a] w1].
  - intros [= <- <-]. left. now exists e.
  - intros H. right. now exists a, w1.
Qed.

Lemma lift_inv {A : Type} (r : result A) (w w1 : world) (x : result A) :
  lift r w = (x, w1) -> r = x /\ w1 = w.
Proof. unfold lift. now intros [= -> ->]. Qed.

Lemma ret_inv {A : Type} (a : A) (w w1 : world) (x : result A) :
  ret a w = (x, w1) -> x = Return a /\ w1 = w.
Proof. unfold ret. now intros [= <- <-]. Qed.

(** One statement of a block: it raised, or it returned and the block went
    on.  A statement that only computes leaves the world as it was. *)
Ltac raised Ho :=
  try discriminate Ho; try (injection Ho as Ho); try subst.

Tactic Notation "step" hyp(H) "as" ident(a) ident(w1) ident(Hm) :=
  apply bind_inv in H;
  let e := fresh "e" in
  let Ho := fresh "Ho" in
  destruct H as [(e & Hm & Ho) | (a & w1 & Hm & H)]; [raised Ho|].

Tactic Notation "pure_step" hyp(H) "as" ident(a) ident(Hm) :=
  apply bind_inv in H;
  let e := fresh "e" in
  let Ho := fresh "Ho" in
  let w1 := fresh "w" in
  destruct H as [(e & Hm & Ho) | (a & w1 & Hm & H)];
  [apply lift_inv in Hm; destruct Hm as [Hm ?]; raised Ho
  |apply lift_inv in Hm; destruct Hm as [Hm ->]].

Section HandlerFacts.

Variable boto3_client : string -> string -> result client.
Variable loads : string -> result value.
Variable dumps : value -> string.
Variable urlopen : request -> result http_response.

Local Notation "'handler_try'" := (lambda_handler_try boto3_client loads dumps urlopen).
Local Notation "'handler'" := (lambda_handler boto3_client loads dumps urlopen).

(** The handler returns what the [try] block returned, and the error response
    for what it raised. *)
Lemma lambda_handler_run (event : value) (context : LambdaContext) (w : world) :
  handler event context w
  = match handler_try event context w with
    | (Raise error, w') => (Return (error_response dumps (str_exn error)), w')
    | (Return resp, w') => (Return resp, w')
    end.
Proof. reflexivity. Qed.

(** [invoke_model] sends the one request and makes its result of the answer. *)
Lemma invoke_model_run (prompt : string) (w : world) :
  invoke_model loads dumps urlopen (generation_request prompt) w
  = (answer_result loads (urlopen (generate_request dumps prompt)),
     {| bedrock_client := bedrock_client w;
        sent := (sent w ++ [generate_request dumps prompt])%list |}).
Proof.
  unfold invoke_model, bind, do_urlopen, answer_result, generate_request.
  destruct (urlopen _) as [e|resp]; cbn [rbind]; [reflexivity|].
  destruct (negb (status resp =? 200)%Z); [reflexivity|].
  unfold lift, ret. destruct (loads (content resp)); reflexivity.
Qed.

(** The lines on the global client: they raise or go on, and send nothing. *)
Lemma client_lines_sent (context : LambdaContext) (c : option client) (w w1 : world)
    (out : result unit) :
  match c with
  | None =>
      cl <- lift (boto3_client "bedrock-runtime"
                    (extract_region_from_arn (invoked_function_arn context))) ;;
      set_bedrock_client cl
  | Some _ => ret tt
  end w = (out, w1) ->
  sent w1 = sent w.
Proof.
  destruct c; intros H.
  - apply ret_inv in H. now destruct H as [_ ->].
  - pure_step H as cl Hcl; [reflexivity|].
    unfold set_bedrock_client in H. now injection H as _ <-.
Qed.

(** The lines on caller identity: they send nothing, and when they return the
    identity passes. *)
Lemma identity_lines (event : value) (has_authorizer : bool) (w w1 : world)
    (out : result unit) :
  (if has_authorizer then
     rc <- lift (Py.getitem event "requestContext") ;;
     authorizer <- lift (Py.getitem rc "authorizer") ;;
     user_info <- lift (Py.getitem authorizer "claims") ;;
     email <- lift (Py.get user_info "email" VNone) ;;
     (if Py.truthy email then ret email
      else lift (Py.get user_info "cognito:username" VNone)) ;;;
     ret tt
   else ret tt) w = (out, w1) ->
  w1 = w
  /\ (forall u, out = Return u -> has_authorizer = true ->
      exists rc authorizer user_info,
        Py.getitem event "requestContext" = Return rc
        /\ Py.getitem rc "authorizer" = Return authorizer
        /\ Py.getitem authorizer "claims" = Return user_info
        /\ is_dict user_info).
Proof.
  destruct has_authorizer.
  - intros H.
    pure_step H as rc Hrc; [split; [reflexivity | discriminate]|].
    pure_step H as authorizer Hau; [split; [reflexivity | discriminate]|].
    pure_step H as user_info Hui; [split; [reflexivity | discriminate]|].
    pure_step H as email Hem; [split; [reflexivity | discriminate]|].
    assert (D : is_dict user_info).
    { destruct user_info; cbn in Hem; try discriminate. now exists entries. }
    assert (P : forall (r : result value) (w2 : world),
               (if Py.truthy email then ret email
                else lift (Py.get user_info "cognito:username" VNone)) w = (r, w2) ->
               w2 = w).
    { intros r w2. destruct (Py.truthy email); intros E.
      - apply ret_inv in E. now destruct E.
      - apply lift_inv in E. now destruct E. }
    step H as name w2 Hname.
    + apply P in Hname. split; [assumption | discriminate].
    + apply P in Hname. subst w2.
      apply ret_inv in H. destruct H as [-> ->].
      split; [reflexivity|]. intros _ _ _. now exists rc, authorizer, user_info.
  - intros H. apply ret_inv in H. destruct H as [-> ->].
    split; [reflexivity | discriminate].
Qed.

(** The [try] block either raises before anything is sent, or parses the
    request, builds the prompt of the working history, sends the one request
    and returns what [respond] makes of the answer. *)
Lemma lambda_handler_try_cases (event : value) (context : LambdaContext)
    (w w' : world) (out : result response) :
  handler_try event context w = (out, w') ->
  (sent w' = sent w /\ exists e, out = Raise e)
  \/ (exists raw parsed message items prompt,
        Py.getitem event "body" = Return raw
        /\ json_loads loads raw = Return parsed
        /\ Py.getitem parsed "message" = Return message
        /\ Py.get parsed "conversationHistory" (VList []) = Return (VList items)
        /\ build_prompt (VList (items ++ [user_turn message])) = Return prompt
        /\ identity_passes event
        /\ sent w' = (sent w ++ [generate_request dumps prompt])%list
        /\ out = respond dumps items message
                   (answer_result loads (urlopen (generate_request dumps prompt)))).
Proof.
  unfold lambda_handler_try. intros H.
  step H as c w0 Hc; [now inversion Hc|].
  unfold get_bedrock_client in Hc. injection Hc as <- <-.
  step H as u w1 Hcl;
    [left; split; [now apply (client_lines_sent _ _ _ _ _ Hcl) | eauto]|].
  apply client_lines_sent in Hcl.
  pure_step H as has_context Hctx; [left; split; [congruence | eauto]|].
  assert (A : forall (r : result bool) (w2 : world),
             (if has_context then
                rc <- lift (Py.getitem event "requestContext") ;;
                lift (Py.contains "authorizer" rc)
              else ret false) w1 = (r, w2) ->
             w2 = w1
             /\ (forall b, r = Return b -> has_context = true ->
                 exists rc, Py.getitem event "requestContext" = Return rc
                            /\ Py.contains "authorizer" rc = Return b)).
  { intros r w2 E. destruct has_context.
    - pure_step E as rc Hrc; [split; [congruence | discriminate]|].
      apply lift_inv in E. destruct E as [E ->].
      split; [reflexivity|]. intros b -> _. now exists rc.
    - apply ret_inv in E. destruct E as [-> ->].
      split; [reflexivity | discriminate]. }
  step H as has_authorizer w2 Hau.
  { apply A in Hau. destruct Hau as [-> _]. left. split; [assumption | eauto]. }
  apply A in Hau. destruct Hau as [-> HA].
  step H as u' w3 Hid.
  { apply identity_lines in Hid. destruct Hid as [-> _].
    left. split; [assumption | eauto]. }
  apply identity_lines in Hid. destruct Hid as [-> HI].
  assert (ID : identity_passes event).
  { intros rc C1 G1 C2.
    assert (has_context = true) as -> by congruence.
    destruct (HA _ eq_refl eq_refl) as (rc0 & G0 & C0).
    assert (rc0 = rc) as -> by congruence.
    assert (has_authorizer = true) as -> by congruence.
    destruct (HI u' eq_refl eq_refl) as (rc' & au & ui & G1' & G2 & G3 & D).
    assert (rc' = rc) as -> by congruence. now exists au, ui. }
  pure_step H as raw Hraw; [left; split; [assumption | eauto]|].
  pure_step H as parsed Hparsed; [left; split; [assumption | eauto]|].
  pure_step H as message Hmessage; [left; split; [assumption | eauto]|].
  pure_step H as history Hhistory; [left; split; [assumption | eauto]|].
  pure_step H as copied Hcopy; [left; split; [assumption | eauto]|].
  pure_step H as messages Happend; [left; split; [assumption | eauto]|].
  pure_step H as prompt Hprompt; [left; split; [assumption | eauto]|].
  assert (exists items, history = VList items /\ copied = VList items
                        /\ messages = VList (items ++ [user_turn message]))
    as (items & -> & -> & ->).
  { destruct history; cbn in Hcopy; try discriminate; injection Hcopy as <-;
      cbn in Happend; try discriminate.
    injection Happend as <-. now exists items. }
  change (VDict [("prompt", VStr prompt); ("max_new_tokens", VInt 512);
                 ("temperature", VFloat 0.7); ("top_p", VFloat 0.9);
                 ("do_sample", VBool true)])
    with (generation_request prompt) in H.
  right. exists raw, parsed, message, items, prompt.
  repeat (split; [assumption|]).
  step H as res w4 Hinv.
  - rewrite invoke_model_run in Hinv. injection Hinv as E <-. cbn [sent].
    split; [now rewrite Hcl|]. unfold respond. now rewrite E.
  - rewrite invoke_model_run in Hinv. injection Hinv as E <-.
    unfold respond. rewrite E. cbn [rbind sent].
    pure_step H as assistant_response Hres; [split; [now rewrite Hcl | now rewrite Hres]|].
    rewrite Hres. cbn [rbind].
    pure_step H as final Hfinal; [discriminate|].
    cbn in Hfinal. injection Hfinal as <-.
    apply ret_inv in H. destruct H as [-> ->]. cbn [sent].
    split; [now rewrite Hcl|].
    rewrite <- app_assoc. reflexivity.
Qed.

End HandlerFacts.

(** ** The handler *)

Section HandlerClaims.

Variable boto3_client : string -> string -> result client.
Variable loads : string -> result value.
Variable dumps : value -> string.
Variable urlopen : request -> result http_response.

Local Notation "'handler_try'" := (lambda_handler_try boto3_client loads dumps urlopen).
Local Notation "'handler'" := (lambda_handler boto3_client loads dumps urlopen).

(** Whatever the [try] block does, the handler returns a response: the one
    of the block, with status 200, or the error response of what it raised. *)
Lemma lambda_handler_returns (event : value) (context : LambdaContext) (w : world) :
  exists resp w',
    handler event context w = (Return resp, w')
    /\ ((statusCode resp = 200%Z /\ handler_try event context w = (Return resp, w'))
        \/ (exists e, resp = error_response dumps (str_exn e)
                      /\ handler_try event context w = (Raise e, w'))).
Proof.
  rewrite lambda_handler_run.
  destruct (handler_try event context w) as [[e|resp] w'] eqn:T.
  - exists (error_response dumps (str_exn e)), w'. split; [reflexivity|].
    right. now exists e.
  - exists resp, w'. split; [reflexivity|]. left. split; [|reflexivity].
    apply lambda_handler_try_cases in T.
    destruct T as [(_ & e & [=]) | (raw & parsed & message & items & prompt & T)].
    destruct T as (_ & _ & _ & _ & _ & _ & _ & R).
    unfold respond in R.
    destruct (answer_result loads _) as [e|res]; cbn [rbind] in R; [discriminate|].
    destruct (Py.getitem res "generated_text") as [e|x]; cbn [rbind] in R;
      [discriminate|].
    now injection R as ->.
Qed.

(** A [try] block that cannot return makes the handler return the error
    response. *)
Lemma lambda_handler_error (event : value) (context : LambdaContext) (w : world) :
  (forall resp w', handler_try event context w <> (Return resp, w')) ->
  exists msg w', handler event context w = (Return (error_response dumps msg), w').
Proof.
  intros N. destruct (lambda_handler_returns event context w) as (resp & w' & H & C).
  destruct C as [(_ & T) | (e & -> & _)].
  - now elim (N resp w').
  - now exists (str_exn e), w'.
Qed.

(** C5: an event without a body, with a body that is not JSON, or with a JSON
    object that has no [message] gets the response with status 500 and the
    body [{success: false, error: <string>}]; and on every event the handler
    returns a response, it raises nothing. *)
Theorem lambda_handler_malformed_request
    (event : value) (context : LambdaContext) (w : world) :
  (exists resp w', handler event context w = (Return resp, w'))
  /\ (body_absent event \/ body_not_json loads event \/ message_missing loads event ->
      exists msg w',
        handler event context w = (Return (error_response dumps msg), w')
        /\ statusCode (error_response dumps msg) = 500%Z
        /\ body (error_response dumps msg)
           = dumps (VDict [("success", VBool false); ("error", VStr msg)])).
Proof.
  split.
  - destruct (lambda_handler_returns event context w) as (resp & w' & H & _).
    now exists resp, w'.
  - intros Bad.
    destruct (lambda_handler_error event context w) as (msg & w' & H).
    + intros resp w' T. apply lambda_handler_try_cases in T.
      destruct T as [(_ & e & [=]) | (raw & parsed & message & items & prompt & T)].
      destruct T as (Hraw & Hparsed & Hmessage & _).
      destruct Bad as [(entries & -> & L) | [(entries & s & e & -> & L & P)
                                           | (entries & s & fields & -> & L & P & F)]];
        cbn [Py.getitem] in Hraw; rewrite L in Hraw; try discriminate;
        injection Hraw as <-; cbn [json_loads] in Hparsed; rewrite P in Hparsed;
        try discriminate.
      injection Hparsed as <-. cbn [Py.getitem] in Hmessage.
      rewrite F in Hmessage. discriminate.
    + exists msg, w'. now repeat split.
Qed.

(** C10: an event whose request context has an authorizer object without
    [claims] gets the error response with status 500, whatever its body; in a
    process whose client is initialised the error is the [KeyError] of
    ['claims'] and nothing is sent. *)
Theorem lambda_handler_authorizer_without_claims
    (event : value) (context : LambdaContext) (w : world) :
  authorizer_without_claims event ->
  (exists msg w',
      handler event context w = (Return (error_response dumps msg), w')
      /\ statusCode (error_response dumps msg) = 500%Z
      /\ body (error_response dumps msg) = dumps (error_envelope msg))
  /\ (forall c, bedrock_client w = Some c ->
      handler event context w = (Return (error_response dumps "'claims'"), w)).
Proof.
  intros (entries & ctx & au & -> & Lc & La & Lk). split.
  - destruct (lambda_handler_error (VDict entries) context w) as (msg & w' & H).
    + intros resp w' T. apply lambda_handler_try_cases in T.
      destruct T as [(_ & e & [=]) | (raw & parsed & message & items & prompt & T)].
      destruct T as (_ & _ & _ & _ & _ & ID & _).
      destruct (ID (VDict ctx)) as (a & ui & Ga & Gk & _).
      * cbn [Py.contains]. now rewrite Lc.
      * cbn [Py.getitem]. now rewrite Lc.
      * cbn [Py.contains]. now rewrite La.
      * cbn [Py.getitem] in Ga. rewrite La in Ga. injection Ga as <-.
        cbn [Py.getitem] in Gk. rewrite Lk in Gk. discriminate.
    + exists msg, w'. now repeat split.
  - intros c Hc.
    unfold lambda_handler, try_except, lambda_handler_try, bind, get_bedrock_client,
      lift, ret.
    rewrite Hc. cbn [Py.contains Py.getitem]. rewrite Lc. cbn [Py.contains Py.getitem].
    rewrite La. cbn [Py.contains Py.getitem]. rewrite Lk.
    reflexivity.
Qed.

(** C7: every response of the handler, the one of the [try] block and the one
    of the [except] clause, has exactly the content type and the three CORS
    headers of the interface. *)
Theorem lambda_handler_cors_headers
    (event : value) (context : LambdaContext) (w : world) :
  exists resp w',
    handler event context w = (Return resp, w')
    /\ (statusCode resp = 200%Z \/ statusCode resp = 500%Z)
    /\ headers resp = cors_header_set
    /\ headers resp =
       [ ("Content-Type", "application/json");
         ("Access-Control-Allow-Origin", "*");
         ("Access-Control-Allow-Headers",
            "Content-Type,X-Amz-Date,Authorization,X-Api-Key,X-Amz-Security-Token");
         ("Access-Control-Allow-Methods", "OPTIONS,POST") ].
Proof.
  destruct (lambda_handler_returns event context w) as (resp & w' & H & C).
  exists resp, w'. split; [assumption|].
  destruct C as [(S200 & T) | (e & -> & _)].
  - split; [now left|].
    apply lambda_handler_try_cases in T.
    destruct T as [(_ & e & [=]) | (raw & parsed & message & items & prompt & T)].
    destruct T as (_ & _ & _ & _ & _ & _ & _ & R).
    unfold respond in R.
    destruct (answer_result loads _) as [e|res]; cbn [rbind] in R; [discriminate|].
    destruct (Py.getitem res "generated_text") as [e|x]; cbn [rbind] in R;
      [discriminate|].
    injection R as ->. now split.
  - split; [now right | now split].
Qed.

(** C6: when the request the handler sent was answered with a status other
    than 200, the handler returns the error response, and its error message
    holds the decimal digits of that status. *)
Theorem lambda_handler_upstream_status
    (event : value) (context : LambdaContext) (w w' : world)
    (out : result response) (req : request) (code : Z) :
  handler event context w = (out, w') ->
  sent w' = (sent w ++ [req])%list ->
  upstream_status urlopen req code ->
  code <> 200%Z ->
  exists msg,
    out = Return (error_response dumps msg)
    /\ statusCode (error_response dumps msg) = 500%Z
    /\ body (error_response dumps msg) = dumps (error_envelope msg)
    /\ mentions (str_of_int code) msg.
Proof.
  intros H Hsent Hup Hcode.
  rewrite lambda_handler_run in H.
  destruct (handler_try event context w) as [out0 w0] eqn:T.
  assert (w0 = w') as -> by (destruct out0; now injection H).
  apply lambda_handler_try_cases in T.
  destruct T as [(Same & _) | (raw & parsed & message & items & prompt & T)].
  - exfalso. rewrite Same in Hsent.
    apply (f_equal (@List.length request)) in Hsent.
    rewrite length_app in Hsent. cbn in Hsent. lia.
  - destruct T as (_ & _ & _ & _ & _ & _ & Hsent' & R).
    rewrite Hsent' in Hsent. apply app_inj_tail in Hsent. destruct Hsent as [_ <-].
    destruct Hup as [(resp & U & St) | (reason & U)]; rewrite U in R;
      unfold answer_result, respond in R; cbn [rbind] in R.
    + assert (N : negb (status resp =? 200)%Z = true).
      { rewrite St. apply negb_true_iff. now apply Z.eqb_neq. }
      rewrite N in R. cbn [rbind] in R. subst out0. injection H as <-.
      cbn [str_exn]. rewrite St.
      exists ("API error: " ++ str_of_int code). repeat split.
      exists "API error: ", "". now rewrite append_nil_r.
    + subst out0. injection H as <-. cbn [str_exn].
      exists ("HTTP Error " ++ str_of_int code ++ ": " ++ reason). repeat split.
      now exists "HTTP Error ", (": " ++ reason).
Qed.

(** The history a successful response carries: the history of the body, the
    user turn with the message as it came, the assistant turn with the
    generated text as it came. *)
Lemma lambda_handler_success_history
    (event : value) (context : LambdaContext) (w w' : world) (resp : response) :
  handler event context w = (Return resp, w') ->
  statusCode resp = 200%Z ->
  exists raw parsed message items generated_text,
    Py.getitem event "body" = Return raw
    /\ json_loads loads raw = Return parsed
    /\ Py.getitem parsed "message" = Return message
    /\ Py.get parsed "conversationHistory" (VList []) = Return (VList items)
    /\ (exists line, turn_line (user_turn message) = Return line)
    /\ body resp
       = dumps (success_envelope generated_text
                  (VList (items ++ [user_turn message;
                                    assistant_turn generated_text]))).
Proof.
  intros H S200. rewrite lambda_handler_run in H.
  destruct (handler_try event context w) as [[e|resp0] w0] eqn:T.
  - injection H as <- _. discriminate.
  - injection H as -> ->.
    apply lambda_handler_try_cases in T.
    destruct T as [(_ & e & [=]) | (raw & parsed & message & items & prompt & T)].
    destruct T as (Hraw & Hparsed & Hmessage & Hhistory & Hprompt & _ & _ & R).
    unfold respond in R.
    destruct (answer_result loads _) as [e|res]; cbn [rbind] in R; [discriminate|].
    destruct (Py.getitem res "generated_text") as [e|x]; cbn [rbind] in R;
      [discriminate|].
    injection R as ->.
    exists raw, parsed, message, items, x. repeat split; try assumption.
    now apply (build_prompt_Return_last items (user_turn message) prompt).
Qed.

End HandlerClaims.

(** ** The claims on the prompt and on the history *)

Lemma join_last (sep l : string) (lines : list string) :
  lines <> [] -> Py.join sep (lines ++ [l]) = Py.join sep lines ++ sep ++ l.
Proof.
  induction lines as [|x lines IH]; [now intros N|]. intros _.
  destruct lines as [|y lines].
  - reflexivity.
  - cbn [app Py.join] in *. rewrite IH by discriminate. now rewrite !append_assoc.
Qed.


(** The prompt of the Messages of the data model ends with the continuation
    marker on a line of its own. *)
Lemma spec_prompt_ends_with_marker (msgs : list Message) :
  exists head, spec_prompt msgs = head ++ newline ++ continuation_marker.
Proof.
  unfold spec_prompt.
  exists (Py.join newline ([preamble] ++ map spec_turn_line msgs)).
  rewrite app_assoc. apply join_last. discriminate.
Qed.

(** For the user Message of the data model alone, [build_prompt] returns the
    preamble, the one user line and the marker. *)
Lemma build_prompt_user_message (message : string) :
  build_prompt (VList [encode_message (user_message message)])
  = Return (preamble ++ newline ++ user_label ++ ": " ++ message
            ++ newline ++ continuation_marker).
Proof.
  change [encode_message (user_message message)]
    with (map encode_message [user_message message]).
  rewrite build_prompt_encode.
  unfold spec_prompt. cbn [map app Py.join].
  unfold spec_turn_line, user_message. cbn [role content_items text map String.concat].
  unfold role_label. rewrite String.eqb_refl.
  now rewrite !append_assoc.
Qed.

(** ** The physical lines of the prompt *)

Lemma split_lines_not_nil (s : string) : split_lines s <> [].
Proof.
  induction s as [|a s IH]; cbn [split_lines]; [discriminate|].
  destruct (Ascii.eqb a (ascii_of_nat 10)); [discriminate|].
  destruct (split_lines s); discriminate.
Qed.

Lemma split_lines_append (s t : string) :
  split_lines (s ++ newline ++ t) = (split_lines s ++ split_lines t)%list.
Proof.
  induction s as [|a s IH].
  - reflexivity.
  - change (String a s ++ newline ++ t) with (String a (s ++ newline ++ t)).
    cbn [split_lines]. rewrite IH.
    destruct (Ascii.eqb a (ascii_of_nat 10)); [reflexivity|].
    pose proof (split_lines_not_nil s) as N.
    destruct (split_lines s) as [|l ls]; [now elim N | reflexivity].
Qed.

Lemma split_lines_newline_free (s : string) :
  newline_free s -> split_lines s = [s].
Proof.
  induction s as [|a s IH]; cbn [split_lines newline_free]; [reflexivity|].
  intros [N F]. apply Ascii.eqb_neq in N. rewrite N, (IH F). reflexivity.
Qed.

Lemma newline_free_append (s t : string) :
  newline_free s -> newline_free t -> newline_free (s ++ t).
Proof.
  induction s as [|a s IH]; cbn [append newline_free]; [trivial|].
  intros [N F] T. split; [assumption | now apply IH].
Qed.

Lemma newline_free_concat (texts : list string) :
  Forall newline_free texts -> newline_free (String.concat "" texts).
Proof.
  induction 1 as [|t texts Ht Hts IH]; cbn [String.concat]; [exact I|].
  destruct texts as [|t' texts]; [assumption|].
  apply newline_free_append; assumption.
Qed.

Lemma newline_free_spec_turn_line (m : Message) :
  single_line_texts m -> newline_free (spec_turn_line m).
Proof.
  intros S. unfold spec_turn_line, role_label.
  apply newline_free_append.
  - destruct (String.eqb (role m) "user"); cbn; repeat split; discriminate.
  - apply (newline_free_append ": "); [cbn; repeat split; discriminate|].
    apply newline_free_concat. unfold single_line_texts in S.
    induction S as [|c cs Hc Hcs IH]; cbn [map]; constructor; assumption.
Qed.

Lemma split_lines_join (first : string) (rest : list string) :
  Forall newline_free rest ->
  split_lines (Py.join newline (first :: rest)) = (split_lines first ++ rest)%list.
Proof.
  revert first. induction rest as [|l rest IH]; intros first F.
  - cbn [Py.join]. now rewrite app_nil_r.
  - change (Py.join newline (first :: l :: rest))
      with (first ++ newline ++ Py.join newline (l :: rest)).
    rewrite split_lines_append, IH by now inversion F.
    rewrite (split_lines_newline_free l) by now inversion F.
    reflexivity.
Qed.

(** When no text holds a newline, the physical lines of the prompt are the
    two lines of the preamble, one line for each Message in order, and the
    continuation marker. *)
Lemma build_prompt_physical_lines (msgs : list Message) :
  Forall single_line_texts msgs ->
  exists prompt,
    build_prompt (VList (map encode_message msgs)) = Return prompt
    /\ split_lines prompt
       = (split_lines preamble ++ map spec_turn_line msgs ++ [continuation_marker])%list
    /\ length (split_lines preamble) = 2.
Proof.
  intros S. exists (spec_prompt msgs). split; [apply build_prompt_encode|].
  split; [|vm_compute; reflexivity].
  unfold spec_prompt. cbn [app]. apply split_lines_join.
  apply Forall_app. split.
  - induction S as [|m ms Hm Hms IH]; cbn [map]; constructor;
      [now apply newline_free_spec_turn_line | assumption].
  - constructor; [|constructor]. cbn. repeat split; discriminate.
Qed.

(** C3, at the message ["hi"] with an empty history: the handler appends the
    turn whose content is the string itself, [build_prompt] raises on its
    first character, nothing is sent and the response is the error response;
    the prompt of the claim is what [build_prompt] returns for the user
    Message of the data model. *)
Theorem lambda_handler_plain_message :
  Stub.run [Stub.chat (VStr "hi") []; Stub.generated "X"]
           (Stub.ok (Stub.generated "X"))
           (Stub.event_of (Stub.chat (VStr "hi") []))
  = (Return (error_response Stub.dumps "'str' object has no attribute 'get'"),
     Stub.warm [])
  /\ build_prompt (VList [user_turn (VStr "hi")])
     = Raise (AttributeError "'str' object has no attribute 'get'")
  /\ build_prompt (VList [encode_message (user_message "hi")])
     = Return (preamble ++ newline ++ user_label ++ ": hi"
               ++ newline ++ continuation_marker).
Proof.
  split; [vm_compute; reflexivity|]. split; [reflexivity|].
  apply build_prompt_user_message.
Qed.

(** C1, at the message [""] with an empty history and the generated text
    ["X"]: the handler succeeds, [response] is ["X"], and the history it
    returns holds the two turns with the bare strings as their content, not the
    two Messages of the data model. *)
Theorem lambda_handler_history_content :
  exists resp w',
    Stub.run [Stub.chat (VStr "") []; Stub.generated "X"]
             (Stub.ok (Stub.generated "X"))
             (Stub.event_of (Stub.chat (VStr "") []))
    = (Return resp, w')
    /\ statusCode resp = 200%Z
    /\ body resp
       = Stub.dumps (success_envelope (VStr "X")
                       (VList [user_turn (VStr ""); assistant_turn (VStr "X")]))
    /\ body resp
       <> Stub.dumps (success_envelope (VStr "X")
                        (VList [encode_message (user_message "");
                                encode_message (assistant_message "X")]))
    /\ user_turn (VStr "") <> encode_message (user_message "")
    /\ assistant_turn (VStr "X") <> encode_message (assistant_message "X").
Proof.
  eexists. eexists. split; [vm_compute; reflexivity|].
  split; [reflexivity|]. split; [reflexivity|].
  split; [vm_compute; discriminate|]. split; discriminate.
Qed.

(** C2, as amended: when the body has a [message], a non-empty string makes
    the turn line of the user turn raise, and the handler returns the error
    response; a response with status 200 is returned only for the empty
    string, the empty dict, or a list of dicts. *)
Theorem lambda_handler_message_shapes
    (boto3_client : string -> string -> result client)
    (loads : string -> result value) (dumps : value -> string)
    (urlopen : request -> result http_response)
    (event : value) (context : LambdaContext) (w w' : world)
    (out : result response) (raw parsed message : value) :
  Py.getitem event "body" = Return raw ->
  json_loads loads raw = Return parsed ->
  Py.getitem parsed "message" = Return message ->
  lambda_handler boto3_client loads dumps urlopen event context w = (out, w') ->
  (forall s, message = VStr s -> s <> "" ->
     turn_line (user_turn message)
     = Raise (AttributeError "'str' object has no attribute 'get'")
     /\ exists msg, out = Return (error_response dumps msg)
                    /\ statusCode (error_response dumps msg) = 500%Z
                    /\ body (error_response dumps msg) = dumps (error_envelope msg))
  /\ (forall resp, out = Return resp -> statusCode resp = 200%Z ->
        message = VStr "" \/ message = VDict []
        \/ exists items, message = VList items /\ Forall is_dict items).
Proof.
  intros Hraw Hparsed Hmessage H.
  assert (Shape : forall resp, out = Return resp -> statusCode resp = 200%Z ->
            exists line, turn_line (user_turn message) = Return line).
  { intros resp -> S200.
    destruct (lambda_handler_success_history _ _ _ _ _ _ _ _ _ H S200)
      as (raw' & parsed' & message' & items & x & R1 & R2 & R3 & _ & L & _).
    assert (raw' = raw) as -> by congruence.
    assert (parsed' = parsed) as -> by congruence.
    assert (message' = message) as -> by congruence.
    exact L. }
  split.
  - intros s -> NE. destruct s as [|a s]; [now elim NE|].
    split; [reflexivity|].
    destruct (lambda_handler_returns boto3_client loads dumps urlopen event context w)
      as (resp & w0 & H0 & C).
    rewrite H0 in H. injection H as <- <-.
    destruct C as [(S200 & _) | (e & -> & _)].
    + destruct (Shape resp eq_refl S200) as (line & L). discriminate.
    + exists (str_exn e). now repeat split.
  - intros resp E S200. destruct (Shape resp E S200) as (line & L).
    now apply (turn_line_user_turn_Return message line).
Qed.

(** C2 as stated fails: with the empty JSON object as the message the handler
    succeeds, and the empty object is neither the empty string nor a sequence
    of content items. *)
Lemma lambda_handler_empty_object_message :
  ~ (forall (boto3_client : string -> string -> result client)
            (loads : string -> result value) (dumps : value -> string)
            (urlopen : request -> result http_response)
            (event : value) (context : LambdaContext) (w w' : world)
            (resp : response) (raw parsed message : value),
        Py.getitem event "body" = Return raw ->
        json_loads loads raw = Return parsed ->
        Py.getitem parsed "message" = Return message ->
        lambda_handler boto3_client loads dumps urlopen event context w
        = (Return resp, w') ->
        statusCode resp = 200%Z ->
        message = VStr "" \/ exists items, message = VList items /\ Forall is_dict items).
Proof.
  intros Claim.
  pose (request_body := Stub.chat (VDict []) []).
  pose (known := [request_body; Stub.generated "X"]).
  destruct (Stub.run known (Stub.ok (Stub.generated "X")) (Stub.event_of request_body))
    as [out w'] eqn:R.
  assert (exists resp, out = Return resp /\ statusCode resp = 200%Z) as (resp & -> & S200).
  { vm_compute in R. injection R as <- _. eexists. split; reflexivity. }
  destruct (Claim Stub.boto3_client (Stub.loads known) Stub.dumps
              (Stub.urlopen (Stub.ok (Stub.generated "X")))
              (Stub.event_of request_body) Stub.context Stub.cold w' resp
              (VStr (Stub.dumps request_body)) request_body (VDict []))
    as [E | (items & E & _)]; try reflexivity; try assumption; discriminate.
Qed.

(** ** The theorems at concrete events *)

Lemma extract_region_from_arn_spec_witness :
  extract_region_from_arn "arn:aws:lambda:us-west-2:123456789012:function:chat"
  = "us-west-2"
  /\ extract_region_from_arn "arn:aws:s3:::bucket" = "us-east-1".
Proof.
  split.
  - apply (proj1 (extract_region_from_arn_spec
                    "arn:aws:lambda:us-west-2:123456789012:function:chat")
             "" "us-west-2" "123456789012:function:chat").
    + split; [reflexivity|]. split; [discriminate|].
      apply no_colon_colon_free. cbn. repeat split; discriminate.
    + intros b r a _. cbn. lia.
  - reflexivity.
Defined.

Lemma lambda_handler_malformed_request_witness :
  exists msg w',
    Stub.run [] (Stub.ok (Stub.generated "X")) (VDict [])
    = (Return (error_response Stub.dumps msg), w')
    /\ statusCode (error_response Stub.dumps msg) = 500%Z
    /\ body (error_response Stub.dumps msg)
       = Stub.dumps (VDict [("success", VBool false); ("error", VStr msg)]).
Proof.
  apply (proj2 (lambda_handler_malformed_request Stub.boto3_client (Stub.loads [])
                  Stub.dumps (Stub.urlopen (Stub.ok (Stub.generated "X")))
                  (VDict []) Stub.context Stub.cold)).
  left. exists []. split; reflexivity.
Defined.

Lemma lambda_handler_authorizer_without_claims_witness :
  let event :=
    VDict [("requestContext", VDict [("authorizer", VDict [("principalId", VStr "u")])]);
           ("body", VStr (Stub.dumps (Stub.chat (VList []) [])))] in
  authorizer_without_claims event
  /\ exists msg w',
       Stub.run [Stub.chat (VList []) []] (Stub.ok (Stub.generated "X")) event
       = (Return (error_response Stub.dumps msg), w').
Proof.
  intros event.
  assert (A : authorizer_without_claims event).
  { exists [("requestContext", VDict [("authorizer", VDict [("principalId", VStr "u")])]);
            ("body", VStr (Stub.dumps (Stub.chat (VList []) [])))],
           [("authorizer", VDict [("principalId", VStr "u")])],
           [("principalId", VStr "u")].
    repeat split. }
  split; [exact A|].
  destruct (proj1 (lambda_handler_authorizer_without_claims Stub.boto3_client
                     (Stub.loads [Stub.chat (VList []) []]) Stub.dumps
                     (Stub.urlopen (Stub.ok (Stub.generated "X")))
                     event Stub.context Stub.cold A))
    as (msg & w' & H & _).
  now exists msg, w'.
Defined.

Lemma lambda_handler_upstream_status_witness :
  let known := [Stub.chat (VList []) []] in
  let answer := Return {| status := 503; content := "Service Unavailable" |} in
  let event := Stub.event_of (Stub.chat (VList []) []) in
  exists msg,
    fst (Stub.run known answer event) = Return (error_response Stub.dumps msg)
    /\ mentions "503" msg.
Proof.
  intros known answer event.
  destruct (lambda_handler_upstream_status Stub.boto3_client (Stub.loads known)
              Stub.dumps (Stub.urlopen answer) event Stub.context Stub.cold
              (snd (Stub.run known answer event)) (fst (Stub.run known answer event))
              (generate_request Stub.dumps
                 (preamble ++ newline ++ user_label ++ ": " ++ newline
                  ++ continuation_marker))
              503)
    as (msg & Hout & _ & _ & Hm).
  - vm_compute. reflexivity.
  - vm_compute. reflexivity.
  - left. exists {| status := 503; content := "Service Unavailable" |}.
    split; reflexivity.
  - discriminate.
  - exists msg. split; assumption.
Defined.

Lemma lambda_handler_message_shapes_witness :
  let request_body := Stub.chat (VStr "hi") [] in
  let known := [request_body; Stub.generated "X"] in
  let event := Stub.event_of request_body in
  exists msg,
    fst (Stub.run known (Stub.ok (Stub.generated "X")) event)
    = Return (error_response Stub.dumps msg).
Proof.
  intros request_body known event.
  destruct (lambda_handler_message_shapes Stub.boto3_client (Stub.loads known)
              Stub.dumps (Stub.urlopen (Stub.ok (Stub.generated "X")))
              event Stub.context Stub.cold
              (snd (Stub.run known (Stub.ok (Stub.generated "X")) event))
              (fst (Stub.run known (Stub.ok (Stub.generated "X")) event))
              (VStr (Stub.dumps request_body)) request_body (VStr "hi"))
    as [Fails _].
  - reflexivity.
  - vm_compute. reflexivity.
  - reflexivity.
  - vm_compute. reflexivity.
  - destruct (Fails "hi" eq_refl) as (_ & msg & Hout & _); [discriminate|].
    now exists msg.
Defined.

(** * Further properties of the code *)

(** ** [extract_region_from_arn] *)

Lemma re_search_here (s group1 : string) :
  match_here s = Some group1 -> re_search s = Some group1.
Proof.
  intros H. destruct s as [|a s]; cbn [re_search]; now rewrite H.
Qed.

(** X1: an ARN that begins with ["arn:aws:lambda:"], a non-empty region
    without a colon and a colon yields that region, whatever follows. *)
Theorem extract_region_from_arn_at_start (region rest : string) :
  region <> "" -> no_colon region ->
  extract_region_from_arn ("arn:aws:lambda:" ++ region ++ ":" ++ rest) = region.
Proof.
  intros NE NC. unfold extract_region_from_arn.
  rewrite (re_search_here _ region); [reflexivity|].
  apply match_here_spec. exists rest. now repeat split.
Qed.

(** X2: the region [extract_region_from_arn] returns is never empty and
    holds no colon, for any string at all. *)
Theorem extract_region_from_arn_shape (arn : string) :
  extract_region_from_arn arn <> "" /\ no_colon (extract_region_from_arn arn).
Proof.
  unfold extract_region_from_arn.
  destruct (re_search arn) as [g|] eqn:R.
  - destruct (re_search_Some _ _ R) as (b & a & (_ & NE & NC) & _). now split.
  - split; [discriminate|]. apply no_colon_colon_free. cbn. repeat split; discriminate.
Qed.

Lemma extract_region_from_arn_at_start_witness :
  extract_region_from_arn ("arn:aws:lambda:" ++ "eu-west-1" ++ ":" ++ "42:function:f")
  = "eu-west-1".
Proof.
  apply extract_region_from_arn_at_start.
  - discriminate.
  - apply no_colon_colon_free. cbn. repeat split; discriminate.
Defined.

(** ** [build_prompt] on arbitrary values *)

Lemma turn_lines_Return (lines0 : list string) (turns : list value) (lines : list string) :
  turn_lines lines0 turns = Return lines ->
  exists added,
    lines = (lines0 ++ added)%list
    /\ Forall2 (fun msg l => turn_line msg = Return l) turns added.
Proof.
  revert lines0. induction turns as [|msg turns IH]; intros lines0; cbn [turn_lines].
  - intros [= <-]. exists []. split; [now rewrite app_nil_r | constructor].
  - destruct (turn_line msg) as [e|l] eqn:L; cbn [rbind]; [discriminate|].
    intros H. destruct (IH _ H) as (added & -> & F).
    exists (l :: added). split; [now rewrite <- app_assoc | now constructor].
Qed.

Lemma join_first (sep first : string) (rest : list string) :
  rest <> [] -> Py.join sep (first :: rest) = first ++ sep ++ Py.join sep rest.
Proof. destruct rest; [now intros N | reflexivity]. Qed.

(** X3: whatever [build_prompt] returns is the newline join of the preamble,
    one line for each turn of the input, in order, and the continuation
    marker; so it begins with the preamble and a newline and ends with a
    newline and the marker. *)
Theorem build_prompt_frame (messages : value) (prompt : string) :
  build_prompt messages = Return prompt ->
  exists turns lines,
    Py.iter messages = Return turns
    /\ Forall2 (fun msg l => turn_line msg = Return l) turns lines
    /\ prompt = Py.join newline ([preamble] ++ lines ++ [continuation_marker])
    /\ (exists tail, prompt = preamble ++ newline ++ tail)
    /\ (exists head, prompt = head ++ newline ++ continuation_marker).
Proof.
  unfold build_prompt.
  destruct (Py.iter messages) as [e|turns]; cbn [rbind]; [discriminate|].
  destruct (turn_lines _ turns) as [e|lines] eqn:T; cbn [rbind]; [discriminate|].
  intros [= <-]. apply turn_lines_Return in T. destruct T as (added & -> & F).
  rewrite rstrip_SYSTEM_PROMPT.
  exists turns, added. split; [reflexivity|]. split; [assumption|].
  split; [now rewrite <- app_assoc|]. split.
  - exists (Py.join newline (added ++ [continuation_marker])).
    cbn [app]. apply join_first. now destruct added.
  - exists (Py.join newline ([preamble] ++ added)).
    apply join_last. discriminate.
Qed.

Lemma build_prompt_frame_witness :
  exists tail,
    spec_prompt [user_message "hello"] = preamble ++ newline ++ tail.
Proof.
  destruct (build_prompt_frame (VList [encode_message (user_message "hello")])
              (spec_prompt [user_message "hello"]))
    as (_ & _ & _ & _ & _ & H & _).
  - reflexivity.
  - exact H.
Defined.

(** The comprehension over a list of dicts never raises: each item gives its
    [text] or the empty string. *)
Lemma texts_of_dicts (items : list (list (string * value))) :
  texts_of (map VDict items) = Return (map text_or_default items).
Proof.
  induction items as [|item items IH]; cbn [map texts_of]; [reflexivity|].
  cbn [Py.get rbind]. rewrite IH. reflexivity.
Qed.

Lemma join_from_strs (i : nat) (strs : list string) :
  Py.join_from i (map VStr strs) = Return (String.concat "" strs).
Proof.
  revert i. induction strs as [|s strs IH]; intros i; cbn [map Py.join_from].
  - reflexivity.
  - rewrite IH. cbn [rbind String.concat].
    destruct strs; [now rewrite append_nil_r | reflexivity].
Qed.

Lemma text_or_default_str (items : list (list (string * value))) :
  Forall text_is_str items ->
  map text_or_default items = map VStr (map text_or_empty items).
Proof.
  induction 1 as [|item items H _ IH]; cbn [map]; [reflexivity|].
  rewrite IH. f_equal. unfold text_or_default, text_or_empty.
  destruct (Py.lookup "text" item) as [v|] eqn:L; [|reflexivity].
  destruct (H v L) as (s & ->). reflexivity.
Qed.

Lemma role_label_of (entries : list (string * value)) :
  (if Py.eq_str (match Py.lookup "role" entries with
                 | Some x => x
                 | None => VNone
                 end) "user"
   then user_label else assistant_label) = label_of entries.
Proof.
  unfold label_of. destruct (Py.lookup "role" entries) as [[]|]; reflexivity.
Qed.

(** X4: a dict turn whose content is absent or a list of dicts with string or
    absent texts gets the line: label, [": "], the texts in order with nothing
    between.  The label is the user label only for the role ["user"]; a
    missing role, a missing content, a missing text and any other key of the
    dicts change nothing else. *)
Theorem turn_line_dict_turn
    (entries : list (string * value)) (items : list (list (string * value))) :
  Py.get (VDict entries) "content" (VList []) = Return (VList (map VDict items)) ->
  Forall text_is_str items ->
  turn_line (VDict entries)
  = Return (label_of entries ++ ": " ++ String.concat "" (map text_or_empty items)).
Proof.
  intros C S. unfold turn_line. rewrite C.
  cbn [Py.get rbind Py.iter]. rewrite texts_of_dicts. cbn [rbind].
  unfold Py.join_empty. rewrite (text_or_default_str items S), join_from_strs.
  cbn [rbind]. now rewrite role_label_of.
Qed.

Lemma turn_line_dict_turn_witness :
  turn_line (VDict [("content", VList [VDict [("text", VStr "a"); ("type", VStr "t")];
                                       VDict [];
                                       VDict [("text", VStr "b")]])])
  = Return (assistant_label ++ ": ab").
Proof.
  apply (turn_line_dict_turn
           [("content", VList [VDict [("text", VStr "a"); ("type", VStr "t")];
                               VDict [];
                               VDict [("text", VStr "b")]])]
           [[("text", VStr "a"); ("type", VStr "t")]; []; [("text", VStr "b")]]).
  - reflexivity.
  - repeat constructor; intros v [= <-]; eexists; reflexivity.
Defined.

Lemma turn_lines_all_return (lines0 : list string) (turns : list value) :
  Forall (fun msg => exists l, turn_line msg = Return l) turns ->
  exists lines, turn_lines lines0 turns = Return lines.
Proof.
  intros F. revert lines0. induction F as [|msg turns (l & L) _ IH]; intros lines0;
    cbn [turn_lines].
  - now exists lines0.
  - rewrite L. cbn [rbind]. apply IH.
Qed.

(** X5: [build_prompt] raises what the first turn that raises raises; the
    turns after it are not looked at. *)
Theorem build_prompt_first_failure
    (good : list value) (bad : value) (rest : list value) (e : exn) :
  Forall (fun msg => exists l, turn_line msg = Return l) good ->
  turn_line bad = Raise e ->
  build_prompt (VList (good ++ bad :: rest)) = Raise e.
Proof.
  intros G B. unfold build_prompt. cbn [Py.iter rbind]. rewrite turn_lines_app.
  destruct (turn_lines_all_return ([] ++ [Py.rstrip SYSTEM_PROMPT]) good G) as (lines & L).
  rewrite L. cbn [rbind turn_lines]. rewrite B. reflexivity.
Qed.

Lemma build_prompt_first_failure_witness :
  build_prompt (VList ([encode_message (user_message "a")]
                       ++ user_turn (VStr "b") :: [VInt 7]))
  = Raise (AttributeError "'str' object has no attribute 'get'").
Proof.
  apply build_prompt_first_failure.
  - constructor; [|constructor]. eexists. apply turn_line_encode.
  - reflexivity.
Defined.

Lemma texts_of_not_dict (before : list (list (string * value))) (item : value)
    (after : list value) :
  ~ is_dict item ->
  texts_of (map VDict before ++ item :: after) = Raise (Py.no_attribute item "get").
Proof.
  intros N. induction before as [|b before IH]; cbn [map app texts_of].
  - destruct item; cbn [Py.get rbind]; try reflexivity.
    elim N. now exists entries.
  - cbn [Py.get rbind]. rewrite IH. reflexivity.
Qed.

(** X6: a content list with an item that is not a dict makes the turn raise
    the [AttributeError] of the first such item, also when a text before or
    after it is not a string. *)
Theorem turn_line_item_not_dict
    (entries : list (string * value)) (before : list (list (string * value)))
    (item : value) (after : list value) :
  Py.get (VDict entries) "content" (VList [])
  = Return (VList (map VDict before ++ item :: after)) ->
  ~ is_dict item ->
  turn_line (VDict entries)
  = Raise (AttributeError ("'" ++ Py.type_name item ++ "' object has no attribute 'get'")).
Proof.
  intros C N. unfold turn_line. rewrite C.
  cbn [Py.get rbind Py.iter]. rewrite (texts_of_not_dict before item after N).
  reflexivity.
Qed.

Lemma turn_line_item_not_dict_witness :
  turn_line (VDict [("role", VStr "user");
                    ("content", VList [VDict [("text", VInt 1)]; VStr "hi"])])
  = Raise (AttributeError "'str' object has no attribute 'get'").
Proof.
  apply (turn_line_item_not_dict
           [("role", VStr "user");
            ("content", VList [VDict [("text", VInt 1)]; VStr "hi"])]
           [[("text", VInt 1)]] (VStr "hi") []).
  - reflexivity.
  - intros (entries & E). discriminate.
Defined.

Lemma join_from_not_str (i : nat) (strs : list string) (v : value) (more : list value) :
  (forall s, v <> VStr s) ->
  Py.join_from i (map VStr strs ++ v :: more)
  = Raise (TypeError ("sequence item " ++ str_of_int (Z.of_nat (i + length strs))
                      ++ ": expected str instance, " ++ Py.type_name v ++ " found")).
Proof.
  intros N. revert i. induction strs as [|s strs IH]; intros i; cbn [map app Py.join_from].
  - rewrite Nat.add_0_r. destruct v; try reflexivity. now elim (N s).
  - rewrite IH. cbn [rbind length]. now rewrite Nat.add_succ_r.
Qed.

(** X7: in a content list of dicts, the first text that is not a string
    makes the turn raise the [TypeError] of [join], which names the position
    of the item and the type of the text. *)
Theorem turn_line_text_not_str
    (entries : list (string * value)) (before : list (list (string * value)))
    (item : list (string * value)) (after : list (list (string * value)))
    (v : value) :
  Py.get (VDict entries) "content" (VList [])
  = Return (VList (map VDict (before ++ item :: after))) ->
  Forall text_is_str before ->
  Py.lookup "text" item = Some v ->
  (forall s, v <> VStr s) ->
  turn_line (VDict entries)
  = Raise (TypeError ("sequence item " ++ str_of_int (Z.of_nat (length before))
                      ++ ": expected str instance, " ++ Py.type_name v ++ " found")).
Proof.
  intros C S L N. unfold turn_line. rewrite C.
  cbn [Py.get rbind Py.iter]. rewrite texts_of_dicts. cbn [rbind].
  unfold Py.join_empty. rewrite map_app. cbn [map].
  rewrite (text_or_default_str before S).
  unfold text_or_default at 1. rewrite L.
  rewrite (join_from_not_str 0 (map text_or_empty before) v (map text_or_default after) N).
  rewrite length_map. reflexivity.
Qed.

Lemma turn_line_text_not_str_witness :
  turn_line (VDict [("content", VList [VDict [("text", VStr "a")];
                                       VDict [("text", VInt 5)]])])
  = Raise (TypeError "sequence item 1: expected str instance, int found").
Proof.
  apply (turn_line_text_not_str
           [("content", VList [VDict [("text", VStr "a")]; VDict [("text", VInt 5)]])]
           [[("text", VStr "a")]] [("text", VInt 5)] [] (VInt 5)).
  - reflexivity.
  - repeat constructor. intros v [= <-]. eexists. reflexivity.
  - reflexivity.
  - discriminate.
Defined.

(** ** Computations that do not look at the world *)

Lemma after_sending_nil (w : world) : after_sending w [] = w.
Proof. destruct w as [c s]. unfold after_sending. cbn. now rewrite app_nil_r. Qed.

Lemma after_sending_app (w : world) (l1 l2 : list request) :
  after_sending (after_sending w l1) l2 = after_sending w (l1 ++ l2).
Proof. unfold after_sending. cbn. now rewrite app_assoc. Qed.

Lemma uniform_ret {A : Type} (a : A) : uniform (ret a).
Proof. exists (Return a), []. intros w. unfold ret. now rewrite after_sending_nil. Qed.

Lemma uniform_lift {A : Type} (r : result A) : uniform (lift r).
Proof. exists r, []. intros w. unfold lift. now rewrite after_sending_nil. Qed.

Lemma uniform_bind {A B : Type} (m : M A) (k : A -> M B) :
  uniform m -> (forall a, uniform (k a)) -> uniform (bind m k).
Proof.
  intros (r & l & Hm) Hk. destruct r as [e|a].
  - exists (Raise e), l. intros w. unfold bind. now rewrite Hm.
  - destruct (Hk a) as (r' & l' & Hka). exists r', (l ++ l')%list.
    intros w. unfold bind. now rewrite Hm, Hka, after_sending_app.
Qed.

Section Invocations.

Variable boto3_client : string -> string -> result client.
Variable loads : string -> result value.
Variable dumps : value -> string.
Variable urlopen : request -> result http_response.

Local Notation "'handler_try'" := (lambda_handler_try boto3_client loads dumps urlopen).
Local Notation "'handler'" := (lambda_handler boto3_client loads dumps urlopen).

(** [invoke_model] on any payload: the result it makes of the answer, and the
    one request it sends. *)
Lemma invoke_model_run_payload (payload : value) (w : world) :
  invoke_model loads dumps urlopen payload w
  = (answer_result loads (urlopen (request_of dumps payload)),
     after_sending w [request_of dumps payload]).
Proof.
  unfold invoke_model, bind, do_urlopen, answer_result, request_of, after_sending.
  destruct (urlopen _) as [e|resp]; cbn [rbind]; [reflexivity|].
  destruct (negb (status resp =? 200)%Z); [reflexivity|].
  unfold lift, ret. destruct (loads (content resp)); reflexivity.
Qed.

(** X8: whatever the endpoint answers and whatever the payload is,
    [invoke_model] sends exactly one request, the POST of the serialised
    payload to the base URL followed by ["/generate"] with the JSON content
    type, and leaves the client of the process alone. *)
Theorem invoke_model_sends_one_request (payload : value) (w : world) :
  let w' := snd (invoke_model loads dumps urlopen payload w) in
  sent w' = (sent w ++ [{| url := API_URL ++ "/generate";
                           data := dumps payload;
                           req_headers := [("Content-Type", "application/json")];
                           method := "POST" |}])%list
  /\ bedrock_client w' = bedrock_client w.
Proof. cbv zeta. rewrite invoke_model_run_payload. now split. Qed.

(** X9: [invoke_model] returns a value exactly when the endpoint answers with
    status 200 and a body that [json.loads] parses, and then it returns the
    parsed body; a response with another status raises
    [Exception("API error: <status>")] without parsing the body. *)
Theorem invoke_model_result (payload : value) (w : world) :
  (forall v,
      fst (invoke_model loads dumps urlopen payload w) = Return v
      <-> exists resp,
            urlopen (request_of dumps payload) = Return resp
            /\ status resp = 200%Z /\ loads (content resp) = Return v)
  /\ (forall resp,
        urlopen (request_of dumps payload) = Return resp ->
        status resp <> 200%Z ->
        fst (invoke_model loads dumps urlopen payload w)
        = Raise (Exception ("API error: " ++ str_of_int (status resp)))).
Proof.
  rewrite invoke_model_run_payload. cbn [fst]. unfold answer_result. split.
  - intros v. split.
    + destruct (urlopen _) as [e|resp]; cbn [rbind]; [discriminate|].
      destruct (Z.eqb_spec (status resp) 200) as [E|N]; cbn [negb]; [|discriminate].
      intros L. now exists resp.
    + intros (resp & -> & S200 & L). cbn [rbind]. rewrite S200. exact L.
  - intros resp -> N. cbn [rbind].
    destruct (Z.eqb_spec (status resp) 200) as [E|_]; [now elim N | reflexivity].
Qed.

Lemma uniform_invoke_model (payload : value) :
  uniform (invoke_model loads dumps urlopen payload).
Proof.
  exists (answer_result loads (urlopen (request_of dumps payload))),
         [request_of dumps payload].
  intros w. apply invoke_model_run_payload.
Qed.

Ltac uniform_steps :=
  repeat first
    [ apply uniform_ret
    | apply uniform_lift
    | apply uniform_invoke_model
    | apply uniform_bind; [|intros ?]
    | match goal with
      | |- uniform (if ?b then _ else _) => destruct b
      | |- uniform (match ?b with true => _ | false => _ end) => destruct b
      end
    | progress cbv zeta ].

(** In a process whose client is there, the [try] block does not look at the
    world: it has one outcome and one list of requests. *)
Lemma lambda_handler_try_warm (event : value) (context : LambdaContext) :
  exists (r : result response) (more : list request),
    forall w c, bedrock_client w = Some c ->
                handler_try event context w = (r, after_sending w more).
Proof.
  unfold lambda_handler_try.
  match goal with
  | |- context [bind get_bedrock_client (fun c => bind _ (fun _ => ?R))] =>
      assert (U : uniform R) by uniform_steps
  end.
  destruct U as (r & more & U). exists r, more. intros w c Hc.
  unfold bind at 1. unfold get_bedrock_client. rewrite Hc.
  unfold bind at 1. unfold ret at 1. apply U.
Qed.

(** The first lines of the block in a cold process: the constructor's
    exception ends the block, its client is stored and the block goes on as in
    a warm process. *)
Lemma lambda_handler_try_cold_raise (event : value) (context : LambdaContext)
    (w : world) (e : exn) :
  bedrock_client w = None ->
  boto3_client "bedrock-runtime"
    (extract_region_from_arn (invoked_function_arn context)) = Raise e ->
  handler_try event context w = (Raise e, w).
Proof.
  intros Hc Hb. unfold lambda_handler_try.
  unfold bind at 1. unfold get_bedrock_client. rewrite Hc.
  unfold bind at 1. unfold bind at 1. unfold lift at 1. rewrite Hb. reflexivity.
Qed.

Lemma lambda_handler_try_cold_return (event : value) (context : LambdaContext)
    (w : world) (cl : client) :
  bedrock_client w = None ->
  boto3_client "bedrock-runtime"
    (extract_region_from_arn (invoked_function_arn context)) = Return cl ->
  handler_try event context w
  = handler_try event context {| bedrock_client := Some cl; sent := sent w |}.
Proof.
  intros Hc Hb. unfold lambda_handler_try.
  unfold bind at 1. unfold get_bedrock_client. rewrite Hc.
  unfold bind at 1. unfold bind at 1. unfold lift at 1. rewrite Hb.
  unfold set_bedrock_client.
  unfold bind at 2. cbn [bedrock_client]. unfold bind at 2. unfold ret at 2.
  reflexivity.
Qed.

End Invocations.

(** ** The handler across invocations *)

Section Process.

Variable boto3_client : string -> string -> result client.
Variable loads : string -> result value.
Variable dumps : value -> string.
Variable urlopen : request -> result http_response.

Local Notation "'handler_try'" := (lambda_handler_try boto3_client loads dumps urlopen).
Local Notation "'handler'" := (lambda_handler boto3_client loads dumps urlopen).

Lemma lambda_handler_settle (event : value) (context : LambdaContext) (w : world) :
  handler event context w
  = (settle dumps (fst (handler_try event context w)),
     snd (handler_try event context w)).
Proof.
  rewrite lambda_handler_run.
  now destruct (handler_try event context w) as [[e|resp] w'].
Qed.

(** X10: a second invocation with the same event, in the world the first one
    left, returns the same response as the first. *)
Theorem lambda_handler_idempotent (event : value) (context : LambdaContext) (w : world) :
  fst (handler event context (snd (handler event context w)))
  = fst (handler event context w).
Proof.
  rewrite !lambda_handler_settle. cbn [fst snd]. f_equal.
  destruct (lambda_handler_try_warm boto3_client loads dumps urlopen event context)
    as (r & more & Warm).
  destruct (bedrock_client w) as [c|] eqn:Hc.
  - rewrite (Warm w c Hc). cbn [fst snd]. now rewrite (Warm (after_sending w more) c Hc).
  - destruct (boto3_client "bedrock-runtime"
                (extract_region_from_arn (invoked_function_arn context)))
      as [e|cl] eqn:Hb.
    + rewrite (lambda_handler_try_cold_raise _ _ _ _ event context w e Hc Hb).
      cbn [fst snd].
      now rewrite (lambda_handler_try_cold_raise _ _ _ _ event context w e Hc Hb).
    + rewrite (lambda_handler_try_cold_return _ _ _ _ event context w cl Hc Hb).
      rewrite (Warm {| bedrock_client := Some cl; sent := sent w |} cl eq_refl).
      cbn [fst snd].
      now rewrite (Warm (after_sending {| bedrock_client := Some cl; sent := sent w |} more)
                     cl eq_refl).
Qed.

(** X11: the client of the process is never used: two processes whose
    clients are there return the same response to the same event, whatever
    the two clients are and whatever was sent before. *)
Theorem lambda_handler_ignores_client
    (event : value) (context : LambdaContext) (w1 w2 : world) (c1 c2 : client) :
  bedrock_client w1 = Some c1 -> bedrock_client w2 = Some c2 ->
  fst (handler event context w1) = fst (handler event context w2)
  /\ exists more,
       length more <= 1
       /\ snd (handler event context w1) = after_sending w1 more
       /\ snd (handler event context w2) = after_sending w2 more.
Proof.
  intros H1 H2. rewrite !lambda_handler_settle. cbn [fst snd].
  destruct (lambda_handler_try_warm boto3_client loads dumps urlopen event context)
    as (r & more & Warm).
  rewrite (Warm w1 c1 H1), (Warm w2 c2 H2). cbn [fst snd]. split; [reflexivity|].
  exists more. split; [|now split].
  pose proof (Warm w1 c1 H1) as T. apply lambda_handler_try_cases in T.
  destruct T as [(S & _) | (raw & parsed & message & items & prompt & T)].
  - cbn [after_sending sent] in S.
    apply (f_equal (@length request)) in S. rewrite length_app in S. lia.
  - destruct T as (_ & _ & _ & _ & _ & _ & S & _).
    cbn [after_sending sent] in S. apply app_inv_head in S. subst more. cbn. lia.
Qed.

(** X12: a client that is there stays: the handler never replaces it,
    whatever the event. *)
Theorem lambda_handler_keeps_client
    (event : value) (context : LambdaContext) (w : world) (c : client) :
  bedrock_client w = Some c ->
  bedrock_client (snd (handler event context w)) = Some c.
Proof.
  intros Hc. rewrite lambda_handler_settle. cbn [snd].
  destruct (lambda_handler_try_warm boto3_client loads dumps urlopen event context)
    as (r & more & Warm).
  now rewrite (Warm w c Hc).
Qed.

(** X13: in a cold process the handler calls the constructor for the service
    ["bedrock-runtime"] with the region of the ARN of the invocation, and
    when the constructor returns, its client is the client of the process
    afterwards, whatever the event and whatever happens next. *)
Theorem lambda_handler_creates_client
    (event : value) (context : LambdaContext) (w : world) (cl : client) :
  bedrock_client w = None ->
  boto3_client "bedrock-runtime"
    (extract_region_from_arn (invoked_function_arn context)) = Return cl ->
  bedrock_client (snd (handler event context w)) = Some cl.
Proof.
  intros Hc Hb. rewrite lambda_handler_settle. cbn [snd].
  rewrite (lambda_handler_try_cold_return _ _ _ _ event context w cl Hc Hb).
  destruct (lambda_handler_try_warm boto3_client loads dumps urlopen event context)
    as (r & more & Warm).
  now rewrite (Warm {| bedrock_client := Some cl; sent := sent w |} cl eq_refl).
Qed.

(** X14: in a cold process an exception of the constructor is the error of
    the response: status 500 with the text of the exception, the event is not
    read, nothing is sent and the process stays cold. *)
Theorem lambda_handler_constructor_fails
    (event : value) (context : LambdaContext) (w : world) (e : exn) :
  bedrock_client w = None ->
  boto3_client "bedrock-runtime"
    (extract_region_from_arn (invoked_function_arn context)) = Raise e ->
  handler event context w = (Return (error_response dumps (str_exn e)), w).
Proof.
  intros Hc Hb. rewrite lambda_handler_settle.
  now rewrite (lambda_handler_try_cold_raise _ _ _ _ event context w e Hc Hb).
Qed.


End Process.

(** ** The handler, forwards *)

Section Forward.

Variable boto3_client : string -> string -> result client.
Variable loads : string -> result value.
Variable dumps : value -> string.
Variable urlopen : request -> result http_response.

Local Notation "'handler_try'" := (lambda_handler_try boto3_client loads dumps urlopen).
Local Notation "'handler'" := (lambda_handler boto3_client loads dumps urlopen).

(** On an event whose identity is in order, the lines on caller identity
    return and change nothing: the block goes on with what follows them. *)
Lemma identity_lines_ok {A : Type} (event : value) (K : M A) (w : world) :
  identity_ok event ->
  (has_context <- lift (Py.contains "requestContext" event) ;;
   has_authorizer <-
     (if has_context : bool then
        rc <- lift (Py.getitem event "requestContext") ;;
        lift (Py.contains "authorizer" rc)
      else ret false) ;;
   (if has_authorizer : bool then
      rc <- lift (Py.getitem event "requestContext") ;;
      authorizer <- lift (Py.getitem rc "authorizer") ;;
      user_info <- lift (Py.getitem authorizer "claims") ;;
      email <- lift (Py.get user_info "email" VNone) ;;
      (if Py.truthy email then ret email
       else lift (Py.get user_info "cognito:username" VNone)) ;;;
      ret tt
    else ret tt) ;;;
   K) w = K w.
Proof.
  intros (entries & -> & [N | (rcs & R & [N | (aus & cl & Au & Cl)])]);
    unfold bind, lift, ret; cbn [Py.contains Py.getitem].
  - rewrite N. reflexivity.
  - rewrite R. cbn [Py.contains]. rewrite N. reflexivity.
  - rewrite R. cbn [Py.contains Py.getitem]. rewrite Au.
    cbn [Py.getitem]. rewrite Cl. cbn [Py.get].
    destruct (Py.truthy _); reflexivity.
Qed.

(** In a warm process only the body of an event whose identity is in order
    matters. *)
Lemma lambda_handler_try_body_only
    (event1 event2 : value) (context : LambdaContext) (w : world) (c : client) :
  identity_ok event1 -> identity_ok event2 ->
  Py.getitem event1 "body" = Py.getitem event2 "body" ->
  bedrock_client w = Some c ->
  handler_try event1 context w = handler_try event2 context w.
Proof.
  intros I1 I2 B Hc. unfold lambda_handler_try.
  unfold bind at 1. unfold get_bedrock_client. rewrite Hc.
  unfold bind at 1. unfold ret at 1.
  rewrite (identity_lines_ok event1) by assumption.
  symmetry.
  unfold bind at 1. unfold get_bedrock_client. rewrite Hc.
  unfold bind at 1. unfold ret at 1.
  rewrite (identity_lines_ok event2) by assumption.
  rewrite B. reflexivity.
Qed.

(** The [try] block, forwards: in a warm process, on an event whose identity
    is in order and whose body parses to a message and a history list for
    which the prompt is built, the block sends the request of the prompt and
    returns what [respond] makes of the answer. *)
Lemma lambda_handler_try_forward
    (event : value) (context : LambdaContext) (w : world) (c : client)
    (raw parsed message : value) (items : list value) (prompt : string) :
  identity_ok event ->
  bedrock_client w = Some c ->
  Py.getitem event "body" = Return raw ->
  json_loads loads raw = Return parsed ->
  Py.getitem parsed "message" = Return message ->
  Py.get parsed "conversationHistory" (VList []) = Return (VList items) ->
  build_prompt (VList (items ++ [user_turn message])) = Return prompt ->
  handler_try event context w
  = (respond dumps items message
       (answer_result loads (urlopen (generate_request dumps prompt))),
     after_sending w [generate_request dumps prompt]).
Proof.
  intros I Hc Hraw Hparsed Hmessage Hhistory Hprompt. unfold lambda_handler_try.
  unfold bind at 1. unfold get_bedrock_client. rewrite Hc.
  unfold bind at 1. unfold ret at 1.
  rewrite (identity_lines_ok event) by assumption.
  unfold bind at 1. unfold lift at 1. rewrite Hraw.
  unfold bind at 1. unfold lift at 1. rewrite Hparsed.
  unfold bind at 1. unfold lift at 1. rewrite Hmessage.
  unfold bind at 1. unfold lift at 1. rewrite Hhistory.
  unfold bind at 1. unfold lift at 1. cbn [Py.copy].
  unfold bind at 1. unfold lift at 1. cbn [Py.append].
  unfold bind at 1. unfold lift at 1. unfold user_turn in Hprompt. rewrite Hprompt.
  unfold bind at 1.
  change (VDict [("prompt", VStr prompt); ("max_new_tokens", VInt 512);
                 ("temperature", VFloat 0.7); ("top_p", VFloat 0.9);
                 ("do_sample", VBool true)])
    with (generation_request prompt).
  rewrite invoke_model_run. unfold respond, after_sending.
  destruct (answer_result loads _) as [e|res]; cbn [rbind]; [reflexivity|].
  unfold bind at 1. unfold lift at 1.
  destruct (Py.getitem res "generated_text") as [e|x]; cbn [rbind]; [reflexivity|].
  unfold bind, lift, ret. cbn [Py.append]. rewrite <- app_assoc. reflexivity.
Qed.


(** X17: failures of the endpoint after the request has left.  In a warm
    process, on a request that gets as far as the call, an exception of
    [urlopen], a body with status 200 that [json.loads] rejects, and a JSON
    object with status 200 without [generated_text] each give status 500: with
    the text of the exception in the first two cases and with ['generated_text']
    in the third.  The request counts as sent in all three. *)
Theorem lambda_handler_upstream_failures
    (event : value) (context : LambdaContext) (w : world) (c : client)
    (raw parsed message : value) (items : list value) (prompt : string) :
  identity_ok event ->
  bedrock_client w = Some c ->
  Py.getitem event "body" = Return raw ->
  json_loads loads raw = Return parsed ->
  Py.getitem parsed "message" = Return message ->
  Py.get parsed "conversationHistory" (VList []) = Return (VList items) ->
  build_prompt (VList (items ++ [user_turn message])) = Return prompt ->
  (forall e,
      urlopen (generate_request dumps prompt) = Raise e ->
      handler event context w
      = (Return (error_response dumps (str_exn e)),
         after_sending w [generate_request dumps prompt]))
  /\ (forall resp e,
        urlopen (generate_request dumps prompt) = Return resp ->
        status resp = 200%Z ->
        loads (content resp) = Raise e ->
        handler event context w
        = (Return (error_response dumps (str_exn e)),
           after_sending w [generate_request dumps prompt]))
  /\ (forall resp fields,
        urlopen (generate_request dumps prompt) = Return resp ->
        status resp = 200%Z ->
        loads (content resp) = Return (VDict fields) ->
        Py.lookup "generated_text" fields = None ->
        handler event context w
        = (Return (error_response dumps "'generated_text'"),
           after_sending w [generate_request dumps prompt])).
Proof.
  intros I Hc Hraw Hparsed Hmessage Hhistory Hprompt.
  rewrite lambda_handler_run.
  rewrite (lambda_handler_try_forward event context w c raw parsed message items prompt)
    by assumption.
  unfold answer_result, respond. repeat split.
  - intros e ->. reflexivity.
  - intros resp e -> S200 L. cbn [rbind]. rewrite S200. cbn [Z.eqb Pos.eqb negb].
    rewrite L. reflexivity.
  - intros resp fields -> S200 L N. cbn [rbind]. rewrite S200. cbn [Z.eqb Pos.eqb negb].
    rewrite L. cbn [rbind Py.getitem]. rewrite N. reflexivity.
Qed.

(** X18: a [conversationHistory] that is not a list.  In a warm process, on an
    event whose identity is in order and whose body has a message, a history
    that is a dict passes [copy] and fails at [append]; any other value that is
    not a list fails at [copy].  The response is status 500 with that
    [AttributeError], and nothing is sent. *)
Theorem lambda_handler_history_not_list
    (event : value) (context : LambdaContext) (w : world) (c : client)
    (raw parsed message history : value) :
  identity_ok event ->
  bedrock_client w = Some c ->
  Py.getitem event "body" = Return raw ->
  json_loads loads raw = Return parsed ->
  Py.getitem parsed "message" = Return message ->
  Py.get parsed "conversationHistory" (VList []) = Return history ->
  (forall items, history <> VList items) ->
  handler event context w
  = (Return (error_response dumps
               ("'" ++ Py.type_name history ++ "' object has no attribute '"
                ++ (match history with VDict _ => "append" | _ => "copy" end) ++ "'")),
     w).
Proof.
  intros I Hc Hraw Hparsed Hmessage Hhistory N.
  rewrite lambda_handler_run. unfold lambda_handler_try.
  unfold bind at 1. unfold get_bedrock_client. rewrite Hc.
  unfold bind at 1. unfold ret at 1.
  rewrite (identity_lines_ok event) by assumption.
  unfold bind at 1. unfold lift at 1. rewrite Hraw.
  unfold bind at 1. unfold lift at 1. rewrite Hparsed.
  unfold bind at 1. unfold lift at 1. rewrite Hmessage.
  unfold bind at 1. unfold lift at 1. rewrite Hhistory.
  unfold bind at 1. unfold lift at 1.
  destruct history; cbn [Py.copy]; try reflexivity.
  now elim (N items).
Qed.

(** X19: caller identity is used for nothing but the log.  Two events whose
    identity is in order and whose bodies are the same get the same response
    and leave the same world, whatever their claims and whether or not they
    carry a request context at all. *)
Theorem lambda_handler_identity_irrelevant
    (event1 event2 : value) (context : LambdaContext) (w : world) :
  identity_ok event1 -> identity_ok event2 ->
  Py.getitem event1 "body" = Py.getitem event2 "body" ->
  handler event1 context w = handler event2 context w.
Proof.
  intros I1 I2 B. rewrite !lambda_handler_run.
  destruct (bedrock_client w) as [c|] eqn:Hc.
  - now rewrite (lambda_handler_try_body_only event1 event2 context w c).
  - destruct (boto3_client "bedrock-runtime"
                (extract_region_from_arn (invoked_function_arn context)))
      as [e|cl] eqn:Hb.
    + now rewrite !(lambda_handler_try_cold_raise _ _ _ _ _ context w e Hc Hb).
    + rewrite !(lambda_handler_try_cold_return _ _ _ _ _ context w cl Hc Hb).
      now rewrite (lambda_handler_try_body_only event1 event2 context _ cl).
Qed.

(** X20: claims that are there but are not a dict.  In a warm process, an
    event whose authorizer has [claims] that is not a JSON object gets status
    500 with the [AttributeError] of [get] on that value; the body is not read
    and nothing is sent. *)
Theorem lambda_handler_claims_not_dict
    (context : LambdaContext) (w : world) (c : client)
    (entries context_entries authorizer_entries : list (string * value))
    (claims : value) :
  bedrock_client w = Some c ->
  Py.lookup "requestContext" entries = Some (VDict context_entries) ->
  Py.lookup "authorizer" context_entries = Some (VDict authorizer_entries) ->
  Py.lookup "claims" authorizer_entries = Some claims ->
  ~ is_dict claims ->
  handler (VDict entries) context w
  = (Return (error_response dumps
               ("'" ++ Py.type_name claims ++ "' object has no attribute 'get'")),
     w).
Proof.
  intros Hc R Au Cl N.
  unfold lambda_handler, try_except, lambda_handler_try, bind, get_bedrock_client,
    lift, ret.
  rewrite Hc. cbn [Py.contains Py.getitem]. rewrite R. cbn [Py.contains Py.getitem].
  rewrite Au. cbn [Py.contains Py.getitem]. rewrite Cl.
  destruct claims; cbn [Py.get]; try reflexivity.
  elim N. now exists entries0.
Qed.

(** X21: the texts of the errors of a malformed request.  In a warm process,
    on an event whose identity is in order: without [body] the error is
    ['body']; with a [body] that is not text (the [null] of a request without
    a body, say) it is the [TypeError] of [json.loads] naming the type; with a
    JSON object without [message] it is ['message']; with JSON that is a list
    or a string it is the [TypeError] of the subscript.  Status 500 and
    nothing sent in every case. *)
Theorem lambda_handler_malformed_request_errors
    (event : value) (context : LambdaContext) (w : world) (c : client) :
  identity_ok event ->
  bedrock_client w = Some c ->
  (Py.getitem event "body" = Raise (KeyError "body") ->
   handler event context w = (Return (error_response dumps "'body'"), w))
  /\ (forall raw,
        Py.getitem event "body" = Return raw ->
        (forall s, raw <> VStr s) ->
        handler event context w
        = (Return (error_response dumps
                     ("the JSON object must be str, bytes or bytearray, not "
                      ++ Py.type_name raw)), w))
  /\ (forall s fields,
        Py.getitem event "body" = Return (VStr s) ->
        loads s = Return (VDict fields) ->
        Py.lookup "message" fields = None ->
        handler event context w = (Return (error_response dumps "'message'"), w))
  /\ (forall s parsed e,
        Py.getitem event "body" = Return (VStr s) ->
        loads s = Return parsed ->
        Py.getitem parsed "message" = Raise e ->
        handler event context w = (Return (error_response dumps (str_exn e)), w)).
Proof.
  intros I Hc.
  assert (Parse : forall e,
             rbind (Py.getitem event "body") (fun raw =>
             rbind (json_loads loads raw) (fun parsed =>
             Py.getitem parsed "message")) = Raise e ->
             handler event context w = (Return (error_response dumps (str_exn e)), w)).
  { intros e P. rewrite lambda_handler_run. unfold lambda_handler_try.
    unfold bind at 1. unfold get_bedrock_client. rewrite Hc.
    unfold bind at 1. unfold ret at 1.
    rewrite (identity_lines_ok event) by assumption.
    unfold bind at 1. unfold lift at 1.
    destruct (Py.getitem event "body") as [e0|raw]; cbn [rbind] in P;
      [now injection P as ->|].
    unfold bind at 1. unfold lift at 1.
    destruct (json_loads loads raw) as [e0|parsed]; cbn [rbind] in P;
      [now injection P as ->|].
    unfold bind at 1. unfold lift at 1. now rewrite P. }
  repeat split.
  - intros B. apply (Parse (KeyError "body")). now rewrite B.
  - intros raw B N. apply (Parse (TypeError _)). rewrite B. cbn [rbind].
    destruct raw; cbn [json_loads rbind]; try reflexivity. now elim (N s).
  - intros s fields B L M. apply (Parse (KeyError "message")). rewrite B.
    cbn [rbind json_loads]. rewrite L. cbn [rbind Py.getitem]. now rewrite M.
  - intros s parsed e B L M. apply Parse. rewrite B.
    cbn [rbind json_loads]. rewrite L. cbn [rbind]. exact M.
Qed.

End Forward.

(** ** The further properties at concrete events *)

Lemma sample_event_identity_ok : identity_ok Sample.event.
Proof. eexists. split; [reflexivity|]. now left. Qed.

Lemma sample_event_with_claims_identity_ok : identity_ok Sample.event_with_claims.
Proof.
  eexists. split; [reflexivity|]. right. eexists. split; [reflexivity|].
  right. eexists. eexists. split; reflexivity.
Qed.

Lemma lambda_handler_ignores_client_witness :
  fst (lambda_handler Stub.boto3_client (Stub.loads Sample.known) Stub.dumps
         (Stub.urlopen (Stub.ok (Stub.generated "X")))
         Sample.event Stub.context (Stub.warm []))
  = fst (lambda_handler Stub.boto3_client (Stub.loads Sample.known) Stub.dumps
           (Stub.urlopen (Stub.ok (Stub.generated "X")))
           Sample.event Stub.context Sample.other_warm).
Proof.
  apply (lambda_handler_ignores_client Stub.boto3_client (Stub.loads Sample.known)
           Stub.dumps (Stub.urlopen (Stub.ok (Stub.generated "X")))
           Sample.event Stub.context (Stub.warm []) Sample.other_warm
           {| service_name := "bedrock-runtime"; region_name := "ap-northeast-1" |}
           {| service_name := "bedrock-runtime"; region_name := "us-east-1" |});
    reflexivity.
Defined.

Lemma lambda_handler_keeps_client_witness :
  bedrock_client
    (snd (lambda_handler Sample.no_client (Stub.loads Sample.known) Stub.dumps
            (Stub.urlopen (Stub.ok (Stub.generated "X")))
            (VDict []) Stub.context Sample.other_warm))
  = Some {| service_name := "bedrock-runtime"; region_name := "us-east-1" |}.
Proof.
  apply lambda_handler_keeps_client. reflexivity.
Defined.

Lemma lambda_handler_creates_client_witness :
  bedrock_client
    (snd (lambda_handler Stub.boto3_client (Stub.loads []) Stub.dumps
            (Stub.urlopen (Stub.ok (Stub.generated "X")))
            (VDict []) Stub.context Stub.cold))
  = Some {| service_name := "bedrock-runtime"; region_name := "ap-northeast-1" |}.
Proof.
  apply lambda_handler_creates_client; reflexivity.
Defined.

Lemma lambda_handler_constructor_fails_witness :
  lambda_handler Sample.no_client (Stub.loads Sample.known) Stub.dumps
    (Stub.urlopen (Stub.ok (Stub.generated "X"))) Sample.event Stub.context Stub.cold
  = (Return (error_response Stub.dumps "Could not connect to the endpoint URL"),
     Stub.cold).
Proof.
  apply (lambda_handler_constructor_fails Sample.no_client (Stub.loads Sample.known)
           Stub.dumps (Stub.urlopen (Stub.ok (Stub.generated "X")))
           Sample.event Stub.context Stub.cold
           (ClientError "Could not connect to the endpoint URL"));
    reflexivity.
Defined.


Lemma lambda_handler_upstream_failures_witness :
  lambda_handler Stub.boto3_client (Stub.loads Sample.known) Stub.dumps
    (Stub.urlopen (Raise (URLError "timed out"))) Sample.event Stub.context (Stub.warm [])
  = (Return (error_response Stub.dumps "<urlopen error timed out>"),
     Stub.warm [generate_request Stub.dumps Sample.prompt]).
Proof.
  apply (proj1 (lambda_handler_upstream_failures Stub.boto3_client
                  (Stub.loads Sample.known) Stub.dumps
                  (Stub.urlopen (Raise (URLError "timed out")))
                  Sample.event Stub.context (Stub.warm [])
                  {| service_name := "bedrock-runtime"; region_name := "ap-northeast-1" |}
                  (VStr (Stub.dumps Sample.request_body)) Sample.request_body
                  Sample.message [] Sample.prompt
                  sample_event_identity_ok eq_refl eq_refl eq_refl eq_refl eq_refl
                  eq_refl)
           (URLError "timed out")).
  reflexivity.
Defined.

Lemma lambda_handler_history_not_list_witness :
  let request_body :=
    VDict [("message", Sample.message); ("conversationHistory", VStr "none")] in
  lambda_handler Stub.boto3_client (Stub.loads [request_body]) Stub.dumps
    (Stub.urlopen (Stub.ok (Stub.generated "X")))
    (Stub.event_of request_body) Stub.context (Stub.warm [])
  = (Return (error_response Stub.dumps "'str' object has no attribute 'copy'"),
     Stub.warm []).
Proof.
  intros request_body.
  apply (lambda_handler_history_not_list Stub.boto3_client (Stub.loads [request_body])
           Stub.dumps (Stub.urlopen (Stub.ok (Stub.generated "X")))
           (Stub.event_of request_body) Stub.context (Stub.warm [])
           {| service_name := "bedrock-runtime"; region_name := "ap-northeast-1" |}
           (VStr (Stub.dumps request_body)) request_body Sample.message (VStr "none"));
    first [reflexivity | discriminate | (eexists; split; [reflexivity|]; now left)].
Defined.

Lemma lambda_handler_identity_irrelevant_witness :
  lambda_handler Stub.boto3_client (Stub.loads Sample.known) Stub.dumps
    (Stub.urlopen (Stub.ok (Stub.generated "X")))
    Sample.event_with_claims Stub.context Stub.cold
  = lambda_handler Stub.boto3_client (Stub.loads Sample.known) Stub.dumps
      (Stub.urlopen (Stub.ok (Stub.generated "X")))
      Sample.event Stub.context Stub.cold.
Proof.
  apply lambda_handler_identity_irrelevant.
  - exact sample_event_with_claims_identity_ok.
  - exact sample_event_identity_ok.
  - reflexivity.
Defined.

Lemma lambda_handler_claims_not_dict_witness :
  lambda_handler Stub.boto3_client (Stub.loads Sample.known) Stub.dumps
    (Stub.urlopen (Stub.ok (Stub.generated "X")))
    (VDict [("requestContext", VDict [("authorizer", VDict [("claims", VNone)])]);
            ("body", VStr (Stub.dumps Sample.request_body))])
    Stub.context (Stub.warm [])
  = (Return (error_response Stub.dumps "'NoneType' object has no attribute 'get'"),
     Stub.warm []).
Proof.
  apply (lambda_handler_claims_not_dict Stub.boto3_client (Stub.loads Sample.known)
           Stub.dumps (Stub.urlopen (Stub.ok (Stub.generated "X")))
           Stub.context (Stub.warm [])
           {| service_name := "bedrock-runtime"; region_name := "ap-northeast-1" |}
           [("requestContext", VDict [("authorizer", VDict [("claims", VNone)])]);
            ("body", VStr (Stub.dumps Sample.request_body))]
           [("authorizer", VDict [("claims", VNone)])]
           [("claims", VNone)] VNone);
    try reflexivity.
  intros (entries & E). discriminate.
Defined.

Lemma lambda_handler_malformed_request_errors_witness :
  lambda_handler Stub.boto3_client (Stub.loads Sample.known) Stub.dumps
    (Stub.urlopen (Stub.ok (Stub.generated "X")))
    (VDict [("body", VNone)]) Stub.context (Stub.warm [])
  = (Return (error_response Stub.dumps
               "the JSON object must be str, bytes or bytearray, not NoneType"),
     Stub.warm []).
Proof.
  assert (I : identity_ok (VDict [("body", VNone)]))
    by (eexists; split; [reflexivity | now left]).
  apply (proj1 (proj2 (lambda_handler_malformed_request_errors Stub.boto3_client
                         (Stub.loads Sample.known) Stub.dumps
                         (Stub.urlopen (Stub.ok (Stub.generated "X")))
                         (VDict [("body", VNone)]) Stub.context (Stub.warm [])
                         {| service_name := "bedrock-runtime";
                            region_name := "ap-northeast-1" |}
                         I eq_refl))
           VNone).
  - reflexivity.
  - discriminate.
Defined.

(** ** What a success needs *)

Lemma turn_lines_In_raises (lines0 : list string) (turns : list value) (bad : value)
    (e : exn) :
  In bad turns -> turn_line bad = Raise e ->
  exists e', turn_lines lines0 turns = Raise e'.
Proof.
  intros I B. revert lines0. induction turns as [|msg turns IH]; intros lines0;
    [now elim I|].
  cbn [turn_lines]. destruct I as [-> | I].
  - rewrite B. now exists e.
  - destruct (turn_line msg) as [e0|l]; cbn [rbind]; [now exists e0 | now apply IH].
Qed.

Lemma build_prompt_In_raises (turns : list value) (bad : value) (e : exn) :
  In bad turns -> turn_line bad = Raise e ->
  exists e', build_prompt (VList turns) = Raise e'.
Proof.
  intros I B. unfold build_prompt. cbn [Py.iter rbind].
  destruct (turn_lines_In_raises ([] ++ [Py.rstrip SYSTEM_PROMPT]) turns bad e I B)
    as (e' & ->).
  now exists e'.
Qed.

Section Needs.

Variable boto3_client : string -> string -> result client.
Variable loads : string -> result value.
Variable dumps : value -> string.
Variable urlopen : request -> result http_response.

Local Notation "'handler'" := (lambda_handler boto3_client loads dumps urlopen).

(** X22: one turn of the history that [build_prompt] rejects fails the whole
    request: the response is status 500 and nothing is sent.  A turn whose
    content is a non-empty string is such a turn, so the history of a
    successful response, which holds the generated text as the content of the
    assistant turn, is rejected when it is sent back. *)
Theorem lambda_handler_history_turn_rejected
    (event : value) (context : LambdaContext) (w : world)
    (raw parsed : value) (items : list value) (bad : value) (e : exn) :
  Py.getitem event "body" = Return raw ->
  json_loads loads raw = Return parsed ->
  Py.get parsed "conversationHistory" (VList []) = Return (VList items) ->
  In bad items ->
  turn_line bad = Raise e ->
  exists msg w',
    handler event context w = (Return (error_response dumps msg), w')
    /\ sent w' = sent w.
Proof.
  intros Hraw Hparsed Hhistory I B.
  rewrite lambda_handler_run.
  destruct (lambda_handler_try boto3_client loads dumps urlopen event context w)
    as [out w'] eqn:T.
  apply lambda_handler_try_cases in T.
  destruct T as [(S & e0 & ->) | (raw' & parsed' & message & items' & prompt & T)].
  - now exists (str_exn e0), w'.
  - exfalso. destruct T as (R1 & R2 & _ & R4 & P & _).
    assert (raw' = raw) as -> by congruence.
    assert (parsed' = parsed) as -> by congruence.
    assert (items' = items) as -> by congruence.
    destruct (build_prompt_In_raises (items ++ [user_turn message]) bad e) as (e' & E).
    + apply in_or_app. now left.
    + assumption.
    + congruence.
Qed.

(** X23: a response with status 200 is never made up: when the handler
    returns one, it has sent exactly one request, the endpoint has answered
    that request with status 200 and a body that parses to a value with
    [generated_text], and the [response] of the envelope is that value's
    [generated_text]. *)
Theorem lambda_handler_success_needs_answer
    (event : value) (context : LambdaContext) (w w' : world) (resp : response) :
  handler event context w = (Return resp, w') ->
  statusCode resp = 200%Z ->
  exists prompt answer res generated_text history,
    sent w' = (sent w ++ [generate_request dumps prompt])%list
    /\ urlopen (generate_request dumps prompt) = Return answer
    /\ status answer = 200%Z
    /\ loads (content answer) = Return res
    /\ Py.getitem res "generated_text" = Return generated_text
    /\ body resp = dumps (success_envelope generated_text history).
Proof.
  intros H S200. rewrite lambda_handler_run in H.
  destruct (lambda_handler_try boto3_client loads dumps urlopen event context w)
    as [[e|resp0] w0] eqn:T.
  - injection H as <- _. discriminate.
  - injection H as -> ->. apply lambda_handler_try_cases in T.
    destruct T as [(_ & e & [=]) | (raw & parsed & message & items & prompt & T)].
    destruct T as (_ & _ & _ & _ & _ & _ & Hsent & R).
    unfold respond, answer_result in R.
    destruct (urlopen (generate_request dumps prompt)) as [e|answer] eqn:U;
      cbn [rbind] in R; [discriminate|].
    destruct (Z.eqb_spec (status answer) 200) as [St|St]; cbn [negb rbind] in R;
      [|discriminate].
    destruct (loads (content answer)) as [e|res] eqn:L; cbn [rbind] in R;
      [discriminate|].
    destruct (Py.getitem res "generated_text") as [e|x] eqn:G; cbn [rbind] in R;
      [discriminate|].
    injection R as ->.
    exists prompt, answer, res, x,
      (VList (items ++ [user_turn message; assistant_turn x])).
    now repeat split.
Qed.

End Needs.

Lemma lambda_handler_history_turn_rejected_witness :
  let returned := [user_turn Sample.message; assistant_turn (VStr "X")] in
  let request_body := Stub.chat Sample.message returned in
  exists msg w',
    Stub.run [request_body; Stub.generated "X"] (Stub.ok (Stub.generated "X"))
             (Stub.event_of request_body)
    = (Return (error_response Stub.dumps msg), w')
    /\ sent w' = [].
Proof.
  intros returned request_body.
  apply (lambda_handler_history_turn_rejected Stub.boto3_client
           (Stub.loads [request_body; Stub.generated "X"]) Stub.dumps
           (Stub.urlopen (Stub.ok (Stub.generated "X")))
           (Stub.event_of request_body) Stub.context Stub.cold
           (VStr (Stub.dumps request_body)) request_body returned
           (assistant_turn (VStr "X"))
           (AttributeError "'str' object has no attribute 'get'")).
  - reflexivity.
  - vm_compute. reflexivity.
  - reflexivity.
  - right. now left.
  - reflexivity.
Defined.

Lemma lambda_handler_success_needs_answer_witness :
  exists prompt answer,
    Stub.urlopen (Stub.ok (Stub.generated "X")) (generate_request Stub.dumps prompt)
    = Return answer
    /\ status answer = 200%Z.
Proof.
  destruct (lambda_handler_success_needs_answer Stub.boto3_client
              (Stub.loads Sample.known) Stub.dumps
              (Stub.urlopen (Stub.ok (Stub.generated "X")))
              Sample.event Stub.context Stub.cold
              (snd (Stub.run Sample.known (Stub.ok (Stub.generated "X")) Sample.event))
              {| statusCode := 200;
                 headers := cors_header_set;
                 body := Stub.dumps
                           (success_envelope (VStr "X")
                              (VList [user_turn Sample.message;
                                      assistant_turn (VStr "X")])) |})
    as (prompt & answer & _ & _ & _ & _ & U & S & _).
  - vm_compute. reflexivity.
  - reflexivity.
  - now exists prompt, answer.
Defined.

(** ** The outbound request *)

Section Outbound.

Variable boto3_client : string -> string -> result client.
Variable loads : string -> result value.
Variable dumps : value -> string.
Variable urlopen : request -> result http_response.

Local Notation "'handler_try'" := (lambda_handler_try boto3_client loads dumps urlopen).
Local Notation "'handler'" := (lambda_handler boto3_client loads dumps urlopen).

(** The lines on caller identity raise what [identity_check] raises and
    change nothing; when it raises nothing the block goes on. *)
Lemma identity_lines_run {A : Type} (event : value) (K : M A) (w : world) :
  (has_context <- lift (Py.contains "requestContext" event) ;;
   has_authorizer <-
     (if has_context : bool then
        rc <- lift (Py.getitem event "requestContext") ;;
        lift (Py.contains "authorizer" rc)
      else ret false) ;;
   (if has_authorizer : bool then
      rc <- lift (Py.getitem event "requestContext") ;;
      authorizer <- lift (Py.getitem rc "authorizer") ;;
      user_info <- lift (Py.getitem authorizer "claims") ;;
      email <- lift (Py.get user_info "email" VNone) ;;
      (if Py.truthy email then ret email
       else lift (Py.get user_info "cognito:username" VNone)) ;;;
      ret tt
    else ret tt) ;;;
   K) w
  = match identity_check event with
    | Raise e => (Raise e, w)
    | Return _ => K w
    end.
Proof.
  unfold identity_check, bind, lift, ret.
  destruct (Py.contains "requestContext" event) as [e|[|]]; cbn [rbind];
    [reflexivity| |reflexivity].
  destruct (Py.getitem event "requestContext") as [e|rc]; cbn [rbind]; [reflexivity|].
  destruct (Py.contains "authorizer" rc) as [e|[|]]; cbn [rbind];
    [reflexivity| |reflexivity].
  destruct (Py.getitem rc "authorizer") as [e|au]; cbn [rbind]; [reflexivity|].
  destruct (Py.getitem au "claims") as [e|ui]; cbn [rbind]; [reflexivity|].
  destruct (Py.get ui "email" VNone) as [e|email]; cbn [rbind]; [reflexivity|].
  destruct (Py.truthy email); cbn [rbind]; [reflexivity|].
  destruct (Py.get ui "cognito:username" VNone); reflexivity.
Qed.

(** In a warm process a request that gets as far as the call sends the
    request of its prompt, and one whose identity lines raise sends nothing. *)
Lemma lambda_handler_try_warm_sent
    (event : value) (context : LambdaContext) (w : world) (c : client) :
  bedrock_client w = Some c ->
  (forall prompt,
      reaches_call boto3_client loads event context w prompt ->
      sent (snd (handler_try event context w))
      = (sent w ++ [generate_request dumps prompt])%list)
  /\ (identity_check event <> Return tt ->
      sent (snd (handler_try event context w)) = sent w).
Proof.
  intros Hc. split.
  - intros prompt (_ & I & raw & parsed & message & items & Hraw & Hparsed & Hmessage
                   & Hhistory & Hprompt).
    unfold lambda_handler_try.
    unfold bind at 1. unfold get_bedrock_client. rewrite Hc.
    unfold bind at 1. unfold ret at 1.
    rewrite identity_lines_run, I.
    unfold bind at 1. unfold lift at 1. rewrite Hraw.
    unfold bind at 1. unfold lift at 1. rewrite Hparsed.
    unfold bind at 1. unfold lift at 1. rewrite Hmessage.
    unfold bind at 1. unfold lift at 1. rewrite Hhistory.
    unfold bind at 1. unfold lift at 1. cbn [Py.copy].
    unfold bind at 1. unfold lift at 1. cbn [Py.append].
    unfold bind at 1. unfold lift at 1. unfold user_turn in Hprompt. rewrite Hprompt.
    unfold bind at 1.
    change (VDict [("prompt", VStr prompt); ("max_new_tokens", VInt 512);
                   ("temperature", VFloat 0.7); ("top_p", VFloat 0.9);
                   ("do_sample", VBool true)])
      with (generation_request prompt).
    rewrite invoke_model_run.
    destruct (answer_result loads _) as [e|res]; [reflexivity|].
    unfold bind at 1. unfold lift at 1.
    destruct (Py.getitem res "generated_text") as [e|x]; [reflexivity|].
    unfold bind, lift, ret. reflexivity.
  - intros N. unfold lambda_handler_try.
    unfold bind at 1. unfold get_bedrock_client. rewrite Hc.
    unfold bind at 1. unfold ret at 1.
    rewrite identity_lines_run.
    destruct (identity_check event) as [e|[]]; [reflexivity | now elim N].
Qed.

(** The requests the handler leaves are those its [try] block leaves. *)
Lemma lambda_handler_sent (event : value) (context : LambdaContext) (w : world) :
  snd (handler event context w) = snd (handler_try event context w).
Proof.
  rewrite lambda_handler_run.
  now destruct (handler_try event context w) as [[e|resp] w'].
Qed.

(** Whether and what the [try] block sends, in any process. *)
Lemma lambda_handler_try_sent
    (event : value) (context : LambdaContext) (w : world) :
  (forall prompt,
      reaches_call boto3_client loads event context w prompt ->
      sent (snd (handler_try event context w))
      = (sent w ++ [generate_request dumps prompt])%list)
  /\ (~ client_ready boto3_client context w \/ identity_check event <> Return tt ->
      sent (snd (handler_try event context w)) = sent w).
Proof.
  destruct (bedrock_client w) as [c|] eqn:Hc.
  - destruct (lambda_handler_try_warm_sent event context w c Hc) as [Sends Stops].
    split; [exact Sends|]. intros [N | N]; [|now apply Stops].
    elim N. unfold client_ready. now rewrite Hc.
  - destruct (boto3_client "bedrock-runtime"
                (extract_region_from_arn (invoked_function_arn context)))
      as [e|cl] eqn:Hb.
    + rewrite (lambda_handler_try_cold_raise _ _ _ _ event context w e Hc Hb).
      split; [|reflexivity].
      intros prompt (R & _). unfold client_ready in R. rewrite Hc in R.
      destruct R as (cl & R). congruence.
    + rewrite (lambda_handler_try_cold_return _ _ _ _ event context w cl Hc Hb).
      destruct (lambda_handler_try_warm_sent event context
                  {| bedrock_client := Some cl; sent := sent w |} cl eq_refl)
        as [Sends Stops].
      split.
      * intros prompt (_ & Id & F). apply (Sends prompt).
        split; [exact Logic.I|]. split; [exact Id | exact F].
      * intros [N | N]; [|now apply Stops].
        elim N. unfold client_ready. rewrite Hc. now exists cl.
Qed.

(** C8: the handler sends its request exactly when the invocation gets as
    far as the call: the client is ready, the lines on identity raise
    nothing, the body parses to a message and a history list, and the prompt
    of the history followed by the user turn is built.  The request is then
    the one request sent: the POST to the base URL followed by ["/generate"],
    with the header [Content-Type: application/json], whose body is the
    serialised GenerationRequest of that prompt with the fixed values 512,
    0.7, 0.9 and true.  An invocation that does not get that far sends
    nothing; so every invocation sends nothing or exactly that request. *)
Theorem lambda_handler_outbound_request
    (event : value) (context : LambdaContext) (w : world) :
  let w' := snd (handler event context w) in
  let request_of_prompt (prompt : string) :=
    {| url := API_URL ++ "/generate";
       data := dumps (VDict [ ("prompt", VStr prompt);
                              ("max_new_tokens", VInt 512);
                              ("temperature", VFloat 0.7);
                              ("top_p", VFloat 0.9);
                              ("do_sample", VBool true) ]);
       req_headers := [("Content-Type", "application/json")];
       method := "POST" |} in
  (forall prompt,
      reaches_call boto3_client loads event context w prompt ->
      sent w' = (sent w ++ [request_of_prompt prompt])%list)
  /\ ((forall prompt, ~ reaches_call boto3_client loads event context w prompt) ->
      sent w' = sent w)
  /\ (sent w' = sent w
      \/ exists prompt,
           reaches_call boto3_client loads event context w prompt
           /\ sent w' = (sent w ++ [request_of_prompt prompt])%list).
Proof.
  cbv zeta. rewrite lambda_handler_sent.
  destruct (lambda_handler_try_sent event context w) as [Sends Stops].
  assert (Cases : sent (snd (handler_try event context w)) = sent w
                  \/ exists prompt,
                       reaches_call boto3_client loads event context w prompt).
  { destruct (handler_try event context w) as [out w'] eqn:T. cbn [snd] in *.
    apply lambda_handler_try_cases in T.
    destruct T as [(Same & _) | (raw & parsed & message & items & prompt & T)];
      [now left|].
    destruct T as (Hraw & Hparsed & Hmessage & Hhistory & Hprompt & _ & Hsent & _).
    assert (Grew : sent w' <> sent w).
    { rewrite Hsent. intros E. apply (f_equal (@length request)) in E.
      rewrite length_app in E. cbn in E. lia. }
    right. exists prompt. split; [|split].
    - unfold client_ready. destruct (bedrock_client w) eqn:Hc; [exact Logic.I|].
      destruct (boto3_client "bedrock-runtime"
                  (extract_region_from_arn (invoked_function_arn context)))
        as [e|cl] eqn:Hb; [|now exists cl].
      elim Grew. apply Stops. left. unfold client_ready. rewrite Hc.
      intros (cl & R). congruence.
    - destruct (identity_check event) as [e|[]] eqn:E; [|reflexivity].
      elim Grew. apply Stops. right. discriminate.
    - now exists raw, parsed, message, items. }
  split; [exact Sends|]. split.
  - intros Never. destruct Cases as [Same | (prompt & R)]; [exact Same|].
    now elim (Never prompt).
  - destruct Cases as [Same | (prompt & R)]; [now left|].
    right. exists prompt. split; [exact R | now apply Sends].
Qed.

End Outbound.

Lemma lambda_handler_outbound_request_witness :
  reaches_call Stub.boto3_client (Stub.loads Sample.known)
    Sample.event Stub.context Stub.cold Sample.prompt
  /\ sent (snd (Stub.run Sample.known (Stub.ok (Stub.generated "X")) Sample.event))
     = [{| url := "https://a814-35-196-164-95.ngrok-free.app/generate";
           data := Stub.dumps (generation_request Sample.prompt);
           req_headers := [("Content-Type", "application/json")];
           method := "POST" |}].
Proof.
  assert (R : reaches_call Stub.boto3_client (Stub.loads Sample.known)
                Sample.event Stub.context Stub.cold Sample.prompt).
  { split; [eexists; reflexivity|]. split; [reflexivity|].
    exists (VStr (Stub.dumps Sample.request_body)), Sample.request_body,
           Sample.message, [].
    repeat split; reflexivity. }
  split; [exact R|].
  exact (proj1 (lambda_handler_outbound_request Stub.boto3_client
                  (Stub.loads Sample.known) Stub.dumps
                  (Stub.urlopen (Stub.ok (Stub.generated "X")))
                  Sample.event Stub.context Stub.cold)
           Sample.prompt R).
Defined.
